(** * License backend: lifecycle, device quota and signed assertions

    A shallow embedding of [server.js], [license-sign.js], [models.js] and the
    payment-provider wrapper [mercadopago.js], followed by the properties of
    the license core.

    Conventions of the embedding
    - a point in time is the number of milliseconds since the epoch ([Z]),
      as returned by [Date.now()] and [Date.prototype.getTime()];
    - a handler reads the clock once: [now] is an argument;
    - the database is a list of rows; [findOne] returns the first row that
      satisfies the [where] clause, [save] rewrites the row with the same
      primary key, [create] appends a row with a fresh key.  Calls to the
      database are taken to succeed: the unique indexes on [token] and
      [mpPreapprovalId] reject nothing here;
    - the payment provider is an oracle ([Provider]): for every call it says
      whether the call returns or throws.  A handler records the calls it
      makes, in order, in its [calls];
    - JavaScript values that may be absent ([undefined]/[null]) are
      [option]s; the empty string and [None] are the falsy ones. *)

From Stdlib Require Import ZArith List String Ascii Bool Lia DecimalString.
Import ListNotations.
Open Scope string_scope.
Open Scope Z_scope.
Open Scope list_scope.

(** ** JavaScript runtime *)
Module Js.

(** [!!s] for a string. *)
Definition truthy (s : string) : bool := negb (String.eqb s "").

(** [!!v] for a value that is a string, [undefined] or [null]. *)
Definition truthy_opt (v : option string) : bool :=
  match v with
  | Some s => truthy s
  | None => false
  end.

(** [a || b] on such values. *)
Definition or_else (a b : option string) : option string :=
  if truthy_opt a then a else b.

(** [s.includes(needle)]. *)
Fixpoint includes (needle s : string) : bool :=
  String.prefix needle s ||
  match s with
  | EmptyString => false
  | String _ rest => includes needle rest
  end.

(** [arr.includes(x)] on an array of strings. *)
Definition array_includes (arr : list string) (x : string) : bool :=
  existsb (String.eqb x) arr.

(** A [Set] of strings, kept in insertion order as JavaScript does. *)
Definition Set_has (s : list string) (x : string) : bool :=
  existsb (String.eqb x) s.

Definition Set_add (s : list string) (x : string) : list string :=
  if Set_has s x then s else s ++ [x].

(** [new Set(arr)]. *)
Definition Set_of (arr : list string) : list string :=
  fold_left Set_add arr [].

Definition Set_size (s : list string) : Z := Z.of_nat (List.length s).

(** The result of [Number(s)]. *)
Inductive number :=
| NaN
| Num (z : Z)     (* an integer *)
| Frac.           (* any other number: not zero, equal to no integer *)

Definition truthy_num (n : number) : bool :=
  match n with
  | NaN => false
  | Num z => negb (z =? 0)
  | Frac => true
  end.

(** [String(z)] for an integer. *)
Definition String_of_Z (z : Z) : string := NilZero.string_of_int (Z.to_int z).

(** One digit in base 36. *)
Definition digit36 (d : Z) : ascii :=
  if d <? 10 then ascii_of_nat (Z.to_nat (48 + d))
  else ascii_of_nat (Z.to_nat (97 + (d - 10))).

Fixpoint toString36_aux (fuel : nat) (z : Z) (acc : string) : string :=
  match fuel with
  | O => acc
  | S fuel' =>
      let acc' := String (digit36 (z mod 36)) acc in
      if z / 36 =? 0 then acc' else toString36_aux fuel' (z / 36) acc'
  end.

(** [z.toString(36)] for a non-negative integer. *)
Definition toString36 (z : Z) : string :=
  toString36_aux (S (Z.to_nat (Z.log2 z))) z "".

(** The parts of the runtime that depend on the host (time zone, number
    syntax): they are an interface, the theorems hold for every instance. *)
Class Runtime := {
  (** [Number(s)] *)
  Number : string -> number;
  (** [d = new Date(t); d.setMonth(d.getMonth() + 1); d.getTime()] *)
  setMonth_next : Z -> Z;
  (** [d = new Date(t); d.setDate(d.getDate() + 1); d.getTime()] *)
  setDate_next : Z -> Z
}.

End Js.

(** ** models.js *)
Module Models.

(** [DataTypes.ENUM("single", "multi")] *)
Inductive Plan := single | multi.

(** [DataTypes.ENUM("inactive","active","paused","cancelled")] *)
Inductive Status := inactive | active | paused | cancelled.

Definition Status_eqb (a b : Status) : bool :=
  match a, b with
  | inactive, inactive | active, active
  | paused, paused | cancelled, cancelled => true
  | _, _ => false
  end.

Definition Status_name (s : Status) : string :=
  match s with
  | inactive => "inactive" | active => "active"
  | paused => "paused" | cancelled => "cancelled"
  end.

(** The [features] column (JSONB); a missing key reads as [false]. *)
Record Features := {
  whatsapp_bot : bool;
  ai_cameras : bool
}.

Record User := {
  user_id : Z;
  email : string
}.

(** A row of [License].  [expiresAt] is [allowNull: false]; [token],
    [mpPreapprovalId] and [devices] may be null. *)
Record License := {
  id : Z;
  userId : Z;
  token : option string;
  plan : Plan;
  status : Status;
  expiresAt : Z;
  devices : option (list string);
  mpPreapprovalId : option string;
  features : Features
}.

Definition set_token (l : License) (v : option string) : License :=
  {| id := id l; userId := userId l; token := v; plan := plan l;
     status := status l; expiresAt := expiresAt l; devices := devices l;
     mpPreapprovalId := mpPreapprovalId l; features := features l |}.

Definition set_plan (l : License) (v : Plan) : License :=
  {| id := id l; userId := userId l; token := token l; plan := v;
     status := status l; expiresAt := expiresAt l; devices := devices l;
     mpPreapprovalId := mpPreapprovalId l; features := features l |}.

Definition set_status (l : License) (v : Status) : License :=
  {| id := id l; userId := userId l; token := token l; plan := plan l;
     status := v; expiresAt := expiresAt l; devices := devices l;
     mpPreapprovalId := mpPreapprovalId l; features := features l |}.

Definition set_expiresAt (l : License) (v : Z) : License :=
  {| id := id l; userId := userId l; token := token l; plan := plan l;
     status := status l; expiresAt := v; devices := devices l;
     mpPreapprovalId := mpPreapprovalId l; features := features l |}.

Definition set_devices (l : License) (v : option (list string)) : License :=
  {| id := id l; userId := userId l; token := token l; plan := plan l;
     status := status l; expiresAt := expiresAt l; devices := v;
     mpPreapprovalId := mpPreapprovalId l; features := features l |}.

Definition set_mpPreapprovalId (l : License) (v : option string) : License :=
  {| id := id l; userId := userId l; token := token l; plan := plan l;
     status := status l; expiresAt := expiresAt l; devices := devices l;
     mpPreapprovalId := v; features := features l |}.

(** The two tables. *)
Record DB := {
  users : list User;
  licenses : list License
}.

Definition with_licenses (db : DB) (ls : list License) : DB :=
  {| users := users db; licenses := ls |}.

(** [User.findByPk(k)] *)
Definition User_findByPk (db : DB) (k : Z) : option User :=
  find (fun u => user_id u =? k) (users db).

(** [License.findOne({ where })] *)
Definition License_findOne (where_ : License -> bool) (db : DB)
  : option License :=
  find where_ (licenses db).

(** [lic.save()]: the row with the key of [lic] becomes [lic]. *)
Definition save (lic : License) (db : DB) : DB :=
  with_licenses db
    (map (fun l => if id l =? id lic then lic else l) (licenses db)).

(** The next value of the serial primary key. *)
Definition next_id (ls : list License) : Z :=
  1 + fold_right Z.max 0 (map id ls).

(** [License.create({...})]: the columns that are not given take their
    defaults ([devices: []], [features: {}]). *)
Definition License_create (db : DB) (uid : Z) (p : Plan) (s : Status)
    (exp : Z) (pre : option string) (tok : option string) : DB :=
  with_licenses db
    (licenses db ++
     [ {| id := next_id (licenses db); userId := uid; token := tok;
          plan := p; status := s; expiresAt := exp; devices := Some [];
          mpPreapprovalId := pre;
          features := {| whatsapp_bot := false; ai_cameras := false |} |} ]).

(** [where: { userId }] and the like. *)
Definition by_userId (u : Z) (l : License) : bool := userId l =? u.

Definition by_userId_status (u : Z) (s : Status) (l : License) : bool :=
  (userId l =? u) && Status_eqb (status l) s.

Definition by_token (t : string) (l : License) : bool :=
  match token l with
  | Some t' => String.eqb t' t
  | None => false
  end.

Definition by_mpPreapprovalId (p : string) (l : License) : bool :=
  match mpPreapprovalId l with
  | Some p' => String.eqb p' p
  | None => false
  end.

Definition by_id (k : Z) (l : License) : bool := id l =? k.

End Models.

(** ** license-sign.js *)
Module LicenseSign.
Import Js Models.

(** The claims of a license assertion. *)
Record Payload := {
  sub : string;
  uid : Z;
  pl_plan : Plan;
  sta : Status;
  dev : string;
  max : Z;
  sync : bool;
  fea : Features;
  tok : option string;
  lic : Z;
  ver : Z;
  iat : Z;
  exp : Z
}.

(** The argument [p] of [signLicenseJWS]. *)
Record SignArgs := {
  a_userId : Z;
  a_licenseId : Z;
  a_token : option string;
  a_plan : Plan;
  a_status : Status;
  a_deviceId : string;
  a_maxDevices : Z;
  a_features : option (bool * Features)
}.

(** The [jsonwebtoken] package with RS256, as far as this module uses it:
    a signing primitive over PEM keys.  [rs256_sign] is [None] when the
    package throws (a PEM that is no private key). *)
Class Jsonwebtoken := {
  Signature : Type;
  rs256_sign : string -> Payload -> option Signature;
  rs256_verify : string -> Payload -> Signature -> bool
}.

(** [priv] and [pub] are the two halves of one key pair. *)
Definition key_pair `{Jsonwebtoken} (priv pub : string) : Prop :=
  forall m, exists s, rs256_sign priv m = Some s /\ rs256_verify pub m s = true.

(** A compact JWS, decoded: header [{alg: RS256}], payload, signature. *)
Record JWS `{Jsonwebtoken} := {
  jws_payload : Payload;
  jws_signature : Signature
}.

Inductive VerifyError :=
| NoPublicPem            (* "No hay PUBLIC PEM para verificar" *)
| JsonWebTokenError      (* invalid signature *)
| TokenExpiredError.     (* jwt expired *)

(** [jwt.sign(payload, key, { algorithm: "RS256" })]; the payload carries
    its own [iat], which the package keeps. *)
Definition jwt_sign `{Jsonwebtoken} (payload : Payload) (key : string)
  : option JWS :=
  match rs256_sign key payload with
  | Some s => Some {| jws_payload := payload; jws_signature := s |}
  | None => None
  end.

(** [jwt.verify(jws, key, { algorithms: ["RS256"] })] at clock [now] (ms):
    the signature is checked first, then the [exp] claim against the
    clock in seconds; a token is expired from [exp] on. *)
Definition jwt_verify `{Jsonwebtoken} (jws : JWS) (key : string) (now : Z)
  : Payload + VerifyError :=
  if rs256_verify key (jws_payload jws) (jws_signature jws) then
    if now / 1000 >=? exp (jws_payload jws) then inr TokenExpiredError
    else inl (jws_payload jws)
  else inr JsonWebTokenError.

(** The environment of the module. *)
Record Config := {
  (** [b64ToPem(LICENSE_PRIVATE_KEY_B64 || "")] *)
  PRIVATE_PEM : string;
  (** [b64ToPem(LICENSE_PUBLIC_KEY_B64 || "")] *)
  PUBLIC_PEM : string;
  (** [LICENSE_OFFLINE_TTL_SEC], when set (to an integer) *)
  LICENSE_OFFLINE_TTL_SEC : option Z
}.

(** [Number(process.env.LICENSE_OFFLINE_TTL_SEC || 72 * 3600)] *)
Definition DEFAULT_TTL_SEC (cfg : Config) : Z :=
  match LICENSE_OFFLINE_TTL_SEC cfg with
  | Some n => n
  | None => 72 * 3600
  end.

Definition getPublicKeyPem (cfg : Config) : string := PUBLIC_PEM cfg.

Definition default_features : bool * Features :=
  (true, {| whatsapp_bot := false; ai_cameras := false |}).

(** The payload that [signLicenseJWS] builds. *)
Definition license_payload (p : SignArgs) (ttlSec : Z) (now_ms : Z) : Payload :=
  let now := now_ms / 1000 in
  let f := match a_features p with Some f => f | None => default_features end in
  {| sub := ("license:" ++ String_of_Z (a_licenseId p))%string;
     uid := a_userId p;
     pl_plan := a_plan p;
     sta := a_status p;
     dev := a_deviceId p;
     max := a_maxDevices p;
     sync := fst f;
     fea := snd f;
     tok := a_token p;
     lic := a_licenseId p;
     ver := 1;
     iat := now;
     exp := now + ttlSec |}.

(** [signLicenseJWS(p, ttlSec)]; [None] when it throws. *)
Definition signLicenseJWS `{Jsonwebtoken} (cfg : Config) (p : SignArgs)
    (ttlSec : Z) (now_ms : Z) : option JWS :=
  if negb (truthy (PRIVATE_PEM cfg)) then None
  else jwt_sign (license_payload p ttlSec now_ms) (PRIVATE_PEM cfg).

(** [signLicenseJWS(p)]: [ttlSec] takes its default. *)
Definition signLicenseJWS_default `{Jsonwebtoken} (cfg : Config)
    (p : SignArgs) (now_ms : Z) : option JWS :=
  signLicenseJWS cfg p (DEFAULT_TTL_SEC cfg) now_ms.

(** [verifyLicenseJWS(jws)] *)
Definition verifyLicenseJWS `{Jsonwebtoken} (cfg : Config) (jws : JWS)
    (now_ms : Z) : Payload + VerifyError :=
  if negb (truthy (PUBLIC_PEM cfg)) then inr NoPublicPem
  else jwt_verify jws (PUBLIC_PEM cfg) now_ms.

End LicenseSign.

(** ** mercadopago.js *)
Module Mercadopago.
Import Js Models.

(** A preapproval (the provider's subscription), as the provider's API
    returns it. *)
Record Preapproval := {
  pre_id : string;
  pre_status : string;
  external_reference : option string
}.

(** What a call to the provider does: it returns, or it throws an error
    whose [status] reads as the given number ([Number(err?.status) || 500]). *)
Inductive Returned (A : Type) :=
| Returns (a : A)
| Throws (status : Z).
Arguments Returns {A} a.
Arguments Throws {A} status.

(** The provider: the SDK's [preapproval.create] and [preapproval.update]
    and the REST call behind [getPreapprovalById]. *)
Record Provider := {
  (** [mercadopago.preapproval.create(payload)]: the body's [id] and
      [init_point] *)
  preapproval_create :
    Z -> Plan -> string -> Returned (option string * option string);
  (** [fetch(".../preapproval/" + id)]: the JSON of a response that is [ok] *)
  preapproval_fetch : string -> Returned Preapproval;
  (** [mercadopago.preapproval.update({ id, status })] *)
  preapproval_update : string -> string -> Returned unit
}.

(** The calls that reach the provider. *)
Inductive Call :=
| Create (userId : Z) (p : Plan) (payerEmail : string)
| Fetch (id : string)
| Update (id : string) (status : string).

(** [createSubscriptionDirect(p)]; [backUrl] is [ensureHttps(p.backUrl)].
    The plan has been checked by the caller's type. *)
Definition createSubscriptionDirect (mp : Provider) (userId : Z) (p : Plan)
    (payerEmail : string) (backUrl : option string) (amount : Z)
  : Returned (string * string) * list Call :=
  if userId =? 0 then (Throws 500, [])
  else if negb (truthy payerEmail) then (Throws 500, [])
  else if amount <=? 0 then (Throws 500, [])
  else
    match backUrl with
    | None => (Throws 400, [])
    | Some _ =>
        let tr := [Create userId p payerEmail] in
        match preapproval_create mp userId p payerEmail with
        | Throws s => (Throws s, tr)
        | Returns (Some i, Some init_point) =>
            if truthy i && truthy init_point
            then (Returns (init_point, i), tr)
            else (Throws 502, tr)
        | Returns _ => (Throws 502, tr)
        end
    end.

(** [getPreapprovalById(id)] *)
Definition getPreapprovalById (mp : Provider) (i : string)
  : Returned Preapproval * list Call :=
  if negb (truthy i) then (Throws 500, [])
  else (preapproval_fetch mp i, [Fetch i]).

(** [cancelPreapproval(id)] *)
Definition cancelPreapproval (mp : Provider) (i : string)
  : Returned unit * list Call :=
  if negb (truthy i) then (Throws 500, [])
  else (preapproval_update mp i "cancelled", [Update i "cancelled"]).

(** [pausePreapproval(id)] *)
Definition pausePreapproval (mp : Provider) (i : string)
  : Returned unit * list Call :=
  if negb (truthy i) then (Throws 500, [])
  else (preapproval_update mp i "paused", [Update i "paused"]).

(** [resumePreapproval(id)] *)
Definition resumePreapproval (mp : Provider) (i : string)
  : Returned unit * list Call :=
  if negb (truthy i) then (Throws 500, [])
  else (preapproval_update mp i "authorized", [Update i "authorized"]).

End Mercadopago.

(** ** server.js *)
Module Server.
Import Js Models LicenseSign Mercadopago.

(** The environment of the process. *)
Record Env := {
  (** [PRICE_SINGLE] and [PRICE_MULTI], when set (to integers) *)
  PRICE_SINGLE : option Z;
  PRICE_MULTI : option Z;
  (** [ensureHttps(computeMpBackUrl())] *)
  mpBackUrl : option string;
  (** the keys and the validity of assertions *)
  license_sign : Config
}.

(** Where [/return] sends the browser. *)
Inductive ReturnTarget :=
| missing_preapproval                 (* /dashboard?status=missing_preapproval *)
| return_ok (preapproval_id : string) (* /return?preapproval_id=..&status=ok *)
| return_status (preapproval_id : string) (status : string)
| return_error.                       (* /return?status=error *)

(** [function limitForPlan(plan) { return plan === "multi" ? 3 : 1; }] *)
Definition limitForPlan (p : Plan) : Z :=
  match p with
  | multi => 3
  | _ => 1
  end.

(** [generateLicenseToken()]; [rnd] is
    [Math.random().toString(36).slice(2, 8)]. *)
Definition generateLicenseToken (rnd : string) (now : Z) : string :=
  ("VS-" ++ rnd ++ "-" ++ toString36 now)%string.

(** [lic.devices || []] *)
Definition devices_or_empty (lic : License) : list string :=
  match devices lic with
  | Some ds => ds
  | None => []
  end.

(** A plan in a request body; [None] when it is neither name. *)
Definition plan_of_string (s : string) : option Plan :=
  if String.eqb s "single" then Some single
  else if String.eqb s "multi" then Some multi
  else None.

(** [["authorized", "active"].includes(status)] *)
Definition authorized_or_active (s : string) : bool :=
  String.eqb s "authorized" || String.eqb s "active".

(** [pre?.external_reference ? Number(pre.external_reference) : null] *)
Definition reference_userId `{Runtime} (pre : Preapproval) : option number :=
  match external_reference pre with
  | Some r => if truthy r then Some (Number r) else None
  | None => None
  end.

Definition truthy_userId (u : option number) : bool :=
  match u with
  | Some n => truthy_num n
  | None => false
  end.

(** [License.findOne({ where: { userId } })] for a [userId] that is a
    number: only an integer equals a key. *)
Definition License_findOne_userId (u : option number) (db : DB)
  : option License :=
  match u with
  | Some (Num z) => License_findOne (by_userId z) db
  | _ => None
  end.

Section Handlers.
Context `{Runtime} `{Jsonwebtoken}.
Variable env : Env.

(** The [license] object of a validation response. *)
Record Summary := {
  s_id : Z;
  s_plan : Plan;
  s_status : Status;
  s_expiresAt : Z;
  s_devices : option (list string)
}.

Inductive Body :=
| Error (error : string)
| ErrorDetails (error : string)      (* { error, details } *)
| TheLicense (lic : License)         (* res.json(lic) *)
| OkMp                               (* { ok: true, mp } *)
| InitPoint (init_point : string) (mpPreapprovalId : option string)
| Validated (license_jws : JWS) (license : Summary) (offline_ttl_sec : Z).

Inductive Response :=
| Json (status : Z) (body : Body)
| SendOK                             (* res.status(200).send("OK") *)
| RedirectTo (target : ReturnTarget).  (* 302 and the HTML fallback *)

(** What a handler leaves behind. *)
Record Outcome := {
  response : Response;
  db_after : DB;
  calls : list Call
}.

Definition reply (r : Response) (db : DB) (tr : list Call) : Outcome :=
  {| response := r; db_after := db; calls := tr |}.

Definition summary (lic : License) : Summary :=
  {| s_id := id lic; s_plan := plan lic; s_status := status lic;
     s_expiresAt := expiresAt lic; s_devices := devices lic |}.

(** The arguments of [signLicenseJWS] in [/validate] and [/refresh]. *)
Definition sign_args (lic : License) (deviceId : string) (max : Z)
  : SignArgs :=
  {| a_userId := userId lic;
     a_licenseId := id lic;
     a_token := token lic;
     a_plan := plan lic;
     a_status := status lic;
     a_deviceId := deviceId;
     a_maxDevices := max;
     a_features := Some (true, features lic) |}.

Definition limit_message (max : Z) : string :=
  ("Límite de dispositivos alcanzado (" ++ String_of_Z max ++ ")")%string.

Definition not_active_message (s : Status) : string :=
  ("Licencia no activa (" ++ Status_name s ++ ")")%string.

(** [POST /license/devices/attach] *)
Definition license_devices_attach (db : DB) (user : Z)
    (body_deviceId : option string) : Outcome :=
  match body_deviceId with
  | None => reply (Json 400 (Error "deviceId requerido")) db []
  | Some deviceId =>
      if negb (truthy deviceId)
      then reply (Json 400 (Error "deviceId requerido")) db []
      else
        match License_findOne (by_userId_status user active) db with
        | None => reply (Json 404 (Error "No hay licencia activa")) db []
        | Some lic =>
            let max := limitForPlan (plan lic) in
            let set := Set_of (devices_or_empty lic) in
            if Set_has set deviceId
            then reply (Json 200 (TheLicense lic)) db []
            else if Set_size set >=? max
            then reply (Json 403 (Error (limit_message max))) db []
            else
              let lic' := set_devices lic (Some (Set_add set deviceId)) in
              reply (Json 200 (TheLicense lic')) (save lic' db) []
        end
  end.

(** [POST /license/devices/detach] *)
Definition license_devices_detach (db : DB) (user : Z)
    (body_deviceId : option string) : Outcome :=
  match License_findOne (by_userId user) db with
  | None => reply (Json 404 (Error "Sin licencia")) db []
  | Some lic =>
      let keep (d : string) :=
        match body_deviceId with
        | Some deviceId => negb (String.eqb d deviceId)
        | None => true
        end in
      let lic' := set_devices lic (Some (filter keep (devices_or_empty lic))) in
      reply (Json 200 (TheLicense lic')) (save lic' db) []
  end.

(** The status of the reply when [/subscribe] fails:
    [status >= 400 && status < 600 ? status : 500]. *)
Definition subscribe_error_status (s : Z) : Z :=
  if (s >=? 400) && (s <? 600) then s else 500.

Definition price (p : Plan) : Z :=
  let single_ := match PRICE_SINGLE env with Some n => n | None => 2999 end in
  let multi_ := match PRICE_MULTI env with Some n => n | None => 4499 end in
  match p with
  | multi => multi_
  | single => single_
  end.

(** [mpEmail || user.email] *)
Definition payer (mpEmail : option string) (u : User) : string :=
  match mpEmail with
  | Some e => if truthy e then e else email u
  | None => email u
  end.

(** [POST /subscribe] *)
Definition subscribe (mp : Provider) (db : DB) (now : Z) (user : Z)
    (body_plan body_mpEmail : option string) : Outcome :=
  match match body_plan with Some s => plan_of_string s | None => None end with
  | None => reply (Json 400 (Error "Plan inválido")) db []
  | Some p =>
      match User_findByPk db user with
      | None => reply (Json 404 (Error "Usuario no encontrado")) db []
      | Some u =>
          let amount := price p in
          match createSubscriptionDirect mp (user_id u) p
                  (payer body_mpEmail u) (mpBackUrl env) amount with
          | (Throws s, tr) =>
              reply (Json (subscribe_error_status s)
                       (ErrorDetails "No se pudo crear la suscripción"))
                    db tr
          | (Returns (init_point, mpPreapprovalId), tr) =>
              let expiresAt := setDate_next now in
              let db' :=
                match License_findOne (by_userId (user_id u)) db with
                | Some lic =>
                    (* Object.assign(lic, { plan, status, mpPreapprovalId, expiresAt }) *)
                    let lic' :=
                      set_expiresAt
                        (set_mpPreapprovalId
                           (set_status (set_plan lic p) inactive)
                           (Some mpPreapprovalId))
                        expiresAt in
                    save lic' db
                | None =>
                    License_create db (user_id u) p inactive expiresAt
                      (Some mpPreapprovalId) None
                end in
              reply (Json 200 (InitPoint init_point None)) db' tr
          end
      end
  end.

(** The block shared, word for word, by [/return] and [/webhook]: cancel
    the superseded preapproval if there is one, then rebind and activate.
    The [try { await cancelPreapproval(..) } catch] swallows a failure. *)
Definition cancel_superseded (mp : Provider) (lic : License)
    (pre : Preapproval) : list Call :=
  match mpPreapprovalId lic with
  | Some old =>
      if truthy old && negb (String.eqb old (pre_id pre))
      then snd (cancelPreapproval mp old)
      else []
  | None => []
  end.

Definition rebind_and_activate (lic : License) (pre : Preapproval)
    (now : Z) (rnd : string) : License :=
  let exp := setMonth_next now in
  let lic1 := set_mpPreapprovalId lic (Some (pre_id pre)) in
  let lic2 := set_status lic1 active in
  let lic3 := set_expiresAt lic2 exp in
  if negb (truthy_opt (token lic3))
  then set_token lic3 (Some (generateLicenseToken rnd now))
  else lic3.

(** [GET /return] *)
Definition return_ (mp : Provider) (db : DB) (now : Z) (rnd : string)
    (q_preapproval_id q_preapprovalId q_id : option string) : Outcome :=
  match or_else (or_else q_preapproval_id q_preapprovalId) q_id with
  | None => reply (RedirectTo missing_preapproval) db []
  | Some preapprovalId =>
      if negb (truthy preapprovalId)
      then reply (RedirectTo missing_preapproval) db []
      else
        match getPreapprovalById mp preapprovalId with
        | (Throws _, tr) => reply (RedirectTo return_error) db tr
        | (Returns pre, tr) =>
            let userId := reference_userId pre in
            if authorized_or_active (pre_status pre) && truthy_userId userId
            then
              match License_findOne_userId userId db with
              | None =>
                  match userId with
                  | Some (Num u) =>
                      let exp := setMonth_next now in
                      reply (RedirectTo (return_ok (pre_id pre)))
                        (License_create db u single active exp
                           (Some (pre_id pre))
                           (Some (generateLicenseToken rnd now)))
                        tr
                  | _ =>
                      (* no such key can be stored: create throws *)
                      reply (RedirectTo return_error) db tr
                  end
              | Some lic =>
                  let tr' := cancel_superseded mp lic pre in
                  let lic' := rebind_and_activate lic pre now rnd in
                  reply (RedirectTo (return_ok (pre_id pre)))
                    (save lic' db) (tr ++ tr')
              end
            else
              reply (RedirectTo (return_status (pre_id pre)
                                 (if truthy (pre_status pre)
                                  then pre_status pre else "unknown")))
                db tr
        end
  end.

(** The body and the query string of a notification. *)
Record Notification := {
  body_type : option string;
  query_type : option string;
  body_topic : option string;
  query_topic : option string;
  body_data_id : option string;
  query_data_id : option string;
  body_id : option string;
  query_id : option string
}.

(** [req.body.type || req.query.type || req.body.topic || req.query.topic] *)
Definition notification_type (n : Notification) : option string :=
  or_else (or_else (or_else (body_type n) (query_type n)) (body_topic n))
    (query_topic n).

(** [req.body?.data?.id || req.query["data.id"] || req.body.id || req.query.id] *)
Definition notification_dataId (n : Notification) : option string :=
  or_else (or_else (or_else (body_data_id n) (query_data_id n)) (body_id n))
    (query_id n).

(** [/webhook], lines 344-350: the license the event is about. *)
Definition webhook_license (db : DB) (pre : Preapproval) : option License :=
  let userId := reference_userId pre in
  let lic := if truthy_userId userId
             then License_findOne_userId userId db else None in
  match lic with
  | Some l => Some l
  | None =>
      (* fallback por id directo *)
      License_findOne (by_mpPreapprovalId (pre_id pre)) db
  end.

(** [/webhook], lines 352-366: what the event does to the license.  The
    result is the database and the calls to the provider. *)
Definition webhook_apply (mp : Provider) (db : DB) (now : Z) (rnd : string)
    (lic : License) (pre : Preapproval) : DB * list Call :=
  if authorized_or_active (pre_status pre) then
    let tr := cancel_superseded mp lic pre in
    (save (rebind_and_activate lic pre now rnd) db, tr)
  else if String.eqb (pre_status pre) "paused" then
    (save (set_status lic paused) db, [])
  else if String.eqb (pre_status pre) "cancelled" then
    (save (set_status lic cancelled) db, [])
  else (db, []).

(** [POST /webhook].  The reply is sent before the event is looked at;
    whatever is thrown afterwards is caught and logged. *)
Definition webhook (mp : Provider) (db : DB) (now : Z) (rnd : string)
    (n : Notification) : Outcome :=
  match notification_type n, notification_dataId n with
  | Some type, Some dataId =>
      if negb (truthy type) || negb (truthy dataId) then reply SendOK db []
      else if includes "preapproval" type then
        match getPreapprovalById mp dataId with
        | (Throws _, tr) => reply SendOK db tr
        | (Returns pre, tr) =>
            match webhook_license db pre with
            | None => reply SendOK db tr
            | Some lic =>
                let '(db', tr') := webhook_apply mp db now rnd lic pre in
                reply SendOK db' (tr ++ tr')
            end
        end
      else reply SendOK db []
  | _, _ => reply SendOK db []
  end.

(** [POST /subscription/cancel] *)
Definition subscription_cancel (mp : Provider) (db : DB) (user : Z) : Outcome :=
  match License_findOne (by_userId user) db with
  | None => reply (Json 404 (Error "No hay suscripción para cancelar")) db []
  | Some lic =>
      (* !lic?.mpPreapprovalId *)
      if negb (truthy_opt (mpPreapprovalId lic))
      then reply (Json 404 (Error "No hay suscripción para cancelar")) db []
      else
        match mpPreapprovalId lic with
        | None => reply (Json 404 (Error "No hay suscripción para cancelar")) db []
        | Some p =>
            match cancelPreapproval mp p with
            | (Throws s, tr) =>
                reply (Json s (Error "No se pudo cancelar la suscripción")) db tr
            | (Returns _, tr) =>
                reply (Json 200 OkMp) (save (set_status lic cancelled) db) tr
            end
        end
  end.

(** [POST /subscription/pause] *)
Definition subscription_pause (mp : Provider) (db : DB) (user : Z) : Outcome :=
  match License_findOne (by_userId user) db with
  | None => reply (Json 404 (Error "No hay suscripción para pausar")) db []
  | Some lic =>
      (* !lic?.mpPreapprovalId *)
      if negb (truthy_opt (mpPreapprovalId lic))
      then reply (Json 404 (Error "No hay suscripción para pausar")) db []
      else
        match mpPreapprovalId lic with
        | None => reply (Json 404 (Error "No hay suscripción para pausar")) db []
        | Some p =>
            match pausePreapproval mp p with
            | (Throws s, tr) =>
                reply (Json s (Error "No se pudo pausar la suscripción")) db tr
            | (Returns _, tr) =>
                reply (Json 200 OkMp) (save (set_status lic paused) db) tr
            end
        end
  end.

(** [POST /subscription/resume] *)
Definition subscription_resume (mp : Provider) (db : DB) (user : Z) : Outcome :=
  match License_findOne (by_userId user) db with
  | None => reply (Json 404 (Error "No hay suscripción para reanudar")) db []
  | Some lic =>
      (* !lic?.mpPreapprovalId *)
      if negb (truthy_opt (mpPreapprovalId lic))
      then reply (Json 404 (Error "No hay suscripción para reanudar")) db []
      else
        match mpPreapprovalId lic with
        | None => reply (Json 404 (Error "No hay suscripción para reanudar")) db []
        | Some p =>
            match resumePreapproval mp p with
            | (Throws s, tr) =>
                reply (Json s (Error "No se pudo reanudar la suscripción")) db tr
            | (Returns _, tr) =>
                reply (Json 200 OkMp) (save (set_status lic active) db) tr
            end
        end
  end.

(** [POST /subscription/change-method]: the license is read, not written. *)
Definition subscription_change_method (mp : Provider) (db : DB) (user : Z)
    (body_mpEmail body_plan : option string) : Outcome :=
  match User_findByPk db user with
  | None => reply (Json 404 (Error "Usuario no encontrado")) db []
  | Some u =>
      let lic := License_findOne (by_userId (user_id u)) db in
      (* plan || lic?.plan || "single" *)
      let currentPlan : option Plan :=
        match body_plan with
        | Some s => if truthy s then plan_of_string s
                    else Some (match lic with Some l => plan l | None => single end)
        | None => Some (match lic with Some l => plan l | None => single end)
        end in
      match currentPlan with
      | None =>
          (* createSubscriptionDirect: "plan inválido" *)
          reply (Json 500 (Error "No se pudo iniciar el cambio de medio de pago")) db []
      | Some p =>
          match createSubscriptionDirect mp (user_id u) p
                  (payer body_mpEmail u) (mpBackUrl env) (price p) with
          | (Throws s, tr) =>
              reply (Json s (Error "No se pudo iniciar el cambio de medio de pago")) db tr
          | (Returns (init_point, mpPreapprovalId), tr) =>
              reply (Json 200 (InitPoint init_point (Some mpPreapprovalId))) db tr
          end
      end
  end.

(** [Number(process.env.LICENSE_OFFLINE_TTL_SEC || 72 * 3600)] *)
Definition offline_ttl_sec : Z := DEFAULT_TTL_SEC (license_sign env).

(** [POST /public/license/validate] *)
Definition public_license_validate (db : DB) (now : Z)
    (body_token body_deviceId : option string) : Outcome :=
  match body_token, body_deviceId with
  | Some token, Some deviceId =>
      if negb (truthy token) || negb (truthy deviceId)
      then reply (Json 400 (Error "token y deviceId requeridos")) db []
      else
        match License_findOne (by_token token) db with
        | None => reply (Json 404 (Error "Licencia no encontrada")) db []
        | Some lic =>
            if negb (Status_eqb (status lic) active)
            then reply (Json 403 (Error (not_active_message (status lic)))) db []
            else if expiresAt lic <? now
            then reply (Json 403 (Error "Licencia expirada")) db []
            else
              let max := limitForPlan (plan lic) in
              let set := Set_of (devices_or_empty lic) in
              let bound : option (License * DB) :=
                if negb (Set_has set deviceId) then
                  if Set_size set >=? max then None
                  else
                    let lic' := set_devices lic (Some (Set_add set deviceId)) in
                    Some (lic', save lic' db)
                else Some (lic, db) in
              match bound with
              | None => reply (Json 403 (Error (limit_message max))) db []
              | Some (lic, db) =>
                  match signLicenseJWS_default (license_sign env)
                          (sign_args lic deviceId max) now with
                  | None =>
                      (* thrown after the save: caught by the handler *)
                      reply (Json 500 (Error "Error al validar licencia")) db []
                  | Some jws =>
                      reply (Json 200 (Validated jws (summary lic) offline_ttl_sec))
                        db []
                  end
              end
        end
  | _, _ => reply (Json 400 (Error "token y deviceId requeridos")) db []
  end.

(** [POST /public/license/refresh] *)
Definition public_license_refresh (db : DB) (now : Z)
    (body_token body_deviceId : option string) : Outcome :=
  match body_token, body_deviceId with
  | Some token, Some deviceId =>
      if negb (truthy token) || negb (truthy deviceId)
      then reply (Json 400 (Error "token y deviceId requeridos")) db []
      else
        match License_findOne (by_token token) db with
        | None => reply (Json 404 (Error "Licencia no encontrada")) db []
        | Some lic =>
            if negb (Status_eqb (status lic) active)
            then reply (Json 403 (Error (not_active_message (status lic)))) db []
            else if expiresAt lic <? now
            then reply (Json 403 (Error "Licencia expirada")) db []
            else if
              match devices lic with
              | Some ds => negb (array_includes ds deviceId)
              | None => true
              end
            then reply (Json 403
                          (Error "Este dispositivo no está vinculado a la licencia"))
                   db []
            else
              let max := limitForPlan (plan lic) in
              match signLicenseJWS_default (license_sign env)
                      (sign_args lic deviceId max) now with
              | None => reply (Json 500 (Error "Error al refrescar licencia")) db []
              | Some jws =>
                  reply (Json 200 (Validated jws (summary lic) offline_ttl_sec))
                    db []
              end
        end
  | _, _ => reply (Json 400 (Error "token y deviceId requeridos")) db []
  end.

(** One request, with what the outside world answers while it is served:
    the clock, the random part of a new token and the provider. *)
Inductive Request :=
| AttachDevice (user : Z) (deviceId : option string)
| DetachDevice (user : Z) (deviceId : option string)
| Subscribe (mp : Provider) (now : Z) (user : Z) (plan mpEmail : option string)
| Return (mp : Provider) (now : Z) (rnd : string)
    (preapproval_id preapprovalId id_ : option string)
| Webhook (mp : Provider) (now : Z) (rnd : string) (n : Notification)
| Cancel (mp : Provider) (user : Z)
| Pause (mp : Provider) (user : Z)
| Resume (mp : Provider) (user : Z)
| ChangeMethod (mp : Provider) (user : Z) (mpEmail plan : option string)
| Validate (now : Z) (token deviceId : option string)
| Refresh (now : Z) (token deviceId : option string).

(** The router. *)
Definition handle (db : DB) (r : Request) : Outcome :=
  match r with
  | AttachDevice u d => license_devices_attach db u d
  | DetachDevice u d => license_devices_detach db u d
  | Subscribe mp now u p e => subscribe mp db now u p e
  | Return mp now rnd a b c => return_ mp db now rnd a b c
  | Webhook mp now rnd n => webhook mp db now rnd n
  | Cancel mp u => subscription_cancel mp db u
  | Pause mp u => subscription_pause mp db u
  | Resume mp u => subscription_resume mp db u
  | ChangeMethod mp u e p => subscription_change_method mp db u e p
  | Validate now t d => public_license_validate db now t d
  | Refresh now t d => public_license_refresh db now t d
  end.

(** The database after a sequence of requests, served one after another. *)
Definition serve (db : DB) (rs : list Request) : DB :=
  fold_left (fun d r => db_after (handle d r)) rs db.

End Handlers.
End Server.

(** ** Concrete instances and data for the closed examples *)
Module Examples.
Import Js Models LicenseSign Mercadopago Server.

(** A host whose numbers are written in decimal, whose months have 30 days
    and whose days have 24 hours. *)
Definition decimal (s : string) : number :=
  match NilZero.int_of_string s with
  | Some i => Num (Z.of_int i)
  | None => NaN
  end.

#[export] Instance host : Runtime := {
  Number := decimal;
  setMonth_next := fun t => t + 30 * 86400000;
  setDate_next := fun t => t + 86400000
}.

(** A signing primitive where a signature names the key that made it and a
    key is its own public half. *)
#[export] Instance signer : Jsonwebtoken := {
  Signature := string;
  rs256_sign := fun key _ => if truthy key then Some key else None;
  rs256_verify := fun key _ s => String.eqb key s
}.

Definition keys : Config :=
  {| PRIVATE_PEM := "KEY"; PUBLIC_PEM := "KEY"; LICENSE_OFFLINE_TTL_SEC := None |}.

Definition env : Env :=
  {| PRICE_SINGLE := None; PRICE_MULTI := None;
     mpBackUrl := Some "https://panel.example/return";
     license_sign := keys |}.

Definition no_features : Features :=
  {| whatsapp_bot := false; ai_cameras := false |}.

(** A license of account 1. *)
Definition license1 (s : Status) (p : Plan) (ds : list string)
    (tok pre : option string) (exp : Z) : License :=
  {| id := 1; userId := 1; token := tok; plan := p; status := s;
     expiresAt := exp; devices := Some ds; mpPreapprovalId := pre;
     features := no_features |}.

Definition db1 (l : License) : DB :=
  {| users := [ {| user_id := 1; email := "ana@example.com" |} ];
     licenses := [ l ] |}.

(** A provider that accepts every call; [pre] is the preapproval it knows. *)
Definition accepting (pre : Preapproval) : Provider :=
  {| preapproval_create := fun _ _ _ =>
       Returns (Some (pre_id pre), Some "https://mp.example/checkout");
     preapproval_fetch := fun _ => Returns pre;
     preapproval_update := fun _ _ => Returns tt |}.

(** A provider that refuses every update. *)
Definition refusing_updates (pre : Preapproval) : Provider :=
  {| preapproval_create := fun _ _ _ =>
       Returns (Some (pre_id pre), Some "https://mp.example/checkout");
     preapproval_fetch := fun _ => Returns pre;
     preapproval_update := fun _ _ => Throws 400 |}.

Definition preapproval (i s : string) (ref : option string) : Preapproval :=
  {| pre_id := i; pre_status := s; external_reference := ref |}.

(** A notification [{ type: "subscription_preapproval", data: { id } }]. *)
Definition notification (i : string) : Notification :=
  {| body_type := Some "subscription_preapproval"; query_type := None;
     body_topic := None; query_topic := None;
     body_data_id := Some i; query_data_id := None;
     body_id := None; query_id := None |}.

(** Two accounts: the license of account 1 and, after it, the license of
    account 2. *)
Definition db2 (l1 l2 : License) : DB :=
  {| users := [ {| user_id := 1; email := "ana@example.com" |};
                {| user_id := 2; email := "luis@example.com" |} ];
     licenses := [ l1; l2 ] |}.

(** A license of account 2. *)
Definition license2 (s : Status) (pre : option string) : License :=
  {| id := 2; userId := 2; token := None; plan := multi; status := s;
     expiresAt := 0; devices := Some []; mpPreapprovalId := pre;
     features := no_features |}.

(** The arguments of an assertion for device "A" of license 1. *)
Definition args : SignArgs :=
  {| a_userId := 1; a_licenseId := 1; a_token := Some "VS-abc-1";
     a_plan := single; a_status := active; a_deviceId := "A";
     a_maxDevices := 1; a_features := None |}.

(** An active single-device license bound to device "A", expiring at [exp]. *)
Definition bound_license (s : Status) (exp : Z) : License :=
  license1 s single ["A"] (Some "VS-abc-1") (Some "pre_old") exp.

(** Subscribing again: account 1 holds [bound_license active 5000] and
    subscribes once more; the provider opens the preapproval "pre_new" and
    later notifies that it is authorized. *)
Definition again_provider : Provider :=
  accepting (preapproval "pre_new" "authorized" (Some "1")).

Definition again_subscribe : Outcome :=
  subscribe env again_provider (db1 (bound_license active 5000)) 1000 1
    (Some "single") None.

Definition again_webhook : Outcome :=
  webhook again_provider (db_after again_subscribe) 2000 "r4nd0m"
    (notification "pre_new").

End Examples.

(** ** Vocabulary of the properties *)
Module Vocabulary.
Import Js Models LicenseSign Mercadopago Server.

(** A reply that grants the license: 200 with a signed assertion. *)
Definition granted `{Jsonwebtoken} (r : Response) : Prop :=
  exists jws s ttl, r = Json 200 (Validated jws s ttl).

(** The primary key of [License] is a key. *)
Definition unique_ids (db : DB) : Prop := NoDup (map id (licenses db)).

(** The row of key [k]. *)
Definition License_findByPk (k : Z) (db : DB) : option License :=
  License_findOne (by_id k) db.

(** How one request may change the table of licenses: not at all, by saving
    a row it has read, or by creating a row.  A saved row keeps its key, and
    keeps its token if it had one. *)
Inductive evolves (db : DB) : DB -> Prop :=
| evolves_same : evolves db db
| evolves_save (lic lic' : License) :
    In lic (licenses db) ->
    id lic' = id lic ->
    (truthy_opt (token lic) = true -> token lic' = token lic) ->
    evolves db (save lic' db)
| evolves_create (uid : Z) (p : Plan) (s : Status) (exp : Z)
    (pre tok : option string) :
    evolves db (License_create db uid p s exp pre tok).

(** The notification [n] is about the preapproval [pre]: it has a type that
    mentions preapprovals and an id, and the provider returns [pre] for
    that id. *)
Definition delivers (mp : Provider) (n : Notification) (dataId : string)
    (pre : Preapproval) : Prop :=
  exists type,
    notification_type n = Some type /\ truthy type = true /\
    includes "preapproval" type = true /\
    notification_dataId n = Some dataId /\ truthy dataId = true /\
    preapproval_fetch mp dataId = Returns pre.

(** The lookup by the external reference of an event: the reference names
    an account and [lic] is the license found for that account. *)
Definition by_reference `{Runtime} (db : DB) (pre : Preapproval)
    (lic : License) : Prop :=
  exists r u,
    external_reference pre = Some r /\ truthy r = true /\
    Number r = Num u /\ u <> 0 /\
    License_findOne (by_userId u) db = Some lic.

(** The lookup by the subscription id of an event, among the stored
    [mpPreapprovalId]s. *)
Definition by_subscription (db : DB) (pre : Preapproval) : option License :=
  License_findOne (by_mpPreapprovalId (pre_id pre)) db.

End Vocabulary.

(** ** What a request writes *)
Module Writes.
Import Js Models LicenseSign Mercadopago Server.

(** A request writes nothing, rewrites one row it has read (keeping its
    key, with old and new row related by [R]), or creates the first license
    of an account. *)
Inductive writes (R : License -> License -> Prop) (db : DB) : DB -> Prop :=
| writes_nothing : writes R db db
| writes_row (lic lic' : License) :
    In lic (licenses db) -> id lic' = id lic -> R lic lic' ->
    writes R db (save lic' db)
| writes_new (uid : Z) (p : Plan) (s : Status) (exp : Z)
    (pre tok : option string) :
    License_findOne (by_userId uid) db = None ->
    writes R db (License_create db uid p s exp pre tok).

(** Only the devices differ. *)
Definition devices_changed (l l' : License) : Prop :=
  exists ds, l' = set_devices l ds.

(** Only the status differs. *)
Definition status_changed (l l' : License) : Prop :=
  exists s, l' = set_status l s.

(** What [/subscribe] assigns: plan, status, preapproval and expiry. *)
Definition subscription_changed (l l' : License) : Prop :=
  exists p s pid e,
    l' = set_expiresAt (set_mpPreapprovalId (set_status (set_plan l p) s) pid) e.

(** What an event of the provider does: it activates, or sets the status. *)
Definition event_applied `{Runtime} (l l' : License) : Prop :=
  (exists pre now rnd, l' = rebind_and_activate l pre now rnd) \/
  status_changed l l'.

(** The requests that read or write the devices of a license. *)
Definition device_request (r : Request) : bool :=
  match r with
  | AttachDevice _ _ | DetachDevice _ _ | Validate _ _ _ => true
  | _ => false
  end.

Definition subscribe_request (r : Request) : bool :=
  match r with
  | Subscribe _ _ _ _ _ => true
  | _ => false
  end.

(** The requests that come from a device or only start a checkout. *)
Definition status_neutral_request (r : Request) : bool :=
  match r with
  | AttachDevice _ _ | DetachDevice _ _ | Validate _ _ _ | Refresh _ _ _
  | ChangeMethod _ _ _ _ => true
  | _ => false
  end.


End Writes.

(** ** auth.js *)
Module Auth.
Import Js.

(** The claims of a session token: [{ id, email, role }]. *)
Record Claims := {
  c_id : Z;
  c_email : string;
  c_role : string
}.

(** What the middleware takes from the runtime and from [jsonwebtoken]. *)
Class SessionTokens := {
  (** [jwt.verify(token, JWT_SECRET)]; [None] when it throws *)
  verify : string -> option Claims;
  (** [s.trim()] *)
  trim : string -> string
}.

(** [getTokenFromHeader(req)]; the argument is [req.headers?.authorization]. *)
Definition getTokenFromHeader `{SessionTokens} (authorization : option string)
  : option string :=
  let auth := match or_else authorization (Some "") with
              | Some a => a
              | None => ""
              end in
  if String.prefix "Bearer " auth
  then Some (trim (String.substring 7 (String.length auth - 7) auth))
  else None.

(** What the middleware does with a request. *)
Inductive Verdict :=
| Refused (status : Z) (error : string)
| Next (user : Claims).

(** [authMiddleware(requiredRole)] applied to a request. *)
Definition authMiddleware `{SessionTokens} (requiredRole : option string)
    (authorization : option string) : Verdict :=
  match getTokenFromHeader authorization with
  | None => Refused 401 "No autorizado: token faltante"
  | Some token =>
      if negb (truthy token)
      then Refused 401 "No autorizado: token faltante"
      else
        match verify token with
        | None => Refused 401 "Token inválido o expirado"
        | Some decoded =>
            if match requiredRole with
               | Some r => truthy r && negb (String.eqb (c_role decoded) r)
               | None => false
               end
            then Refused 403 "Prohibido: rol insuficiente"
            else Next {| c_id := c_id decoded; c_email := c_email decoded;
                         c_role := c_role decoded |}
        end
  end.

(** Session tokens for the examples: "t-ana" is the token of a client,
    every other token is refused; nothing is trimmed. *)
Definition example_tokens : SessionTokens :=
  {| verify := fun t =>
       if String.eqb t "t-ana"
       then Some {| c_id := 1; c_email := "ana@example.com"; c_role := "client" |}
       else None;
     trim := fun s => s |}.

End Auth.

(** ** Numbers in base 36 *)
Module Base36.
Import Js.

(** The value of a digit of base 36, as [parseInt] reads it. *)
Definition digit36_value (c : ascii) : Z :=
  let n := Z.of_nat (nat_of_ascii c) in
  if n <? 58 then n - 48 else n - 87.

Fixpoint value36_from (v : Z) (s : string) : Z :=
  match s with
  | EmptyString => v
  | String c rest => value36_from (v * 36 + digit36_value c) rest
  end.

(** [parseInt(s, 36)] for a string of digits of base 36. *)
Definition parseInt36 (s : string) : Z := value36_from 0 s.

(** The string has no "-". *)
Fixpoint dash_free (s : string) : bool :=
  match s with
  | EmptyString => true
  | String c rest => negb (Ascii.eqb c "-"%char) && dash_free rest
  end.

End Base36.

(** * Properties *)
Import Js Models LicenseSign Mercadopago Server Vocabulary Writes Auth Base36.

(** ** Sets of devices *)

Lemma Set_has_true_iff (s : list string) (x : string) :
  Set_has s x = true <-> In x s.
Proof.
  unfold Set_has. rewrite existsb_exists. split.
  - intros [y [Hy He]]. apply String.eqb_eq in He. now subst.
  - intros Hx. exists x. split; [assumption | apply String.eqb_refl].
Qed.

Lemma In_Set_add (s : list string) (x y : string) :
  In y (Set_add s x) <-> In y s \/ y = x.
Proof.
  unfold Set_add. destruct (Set_has s x) eqn:E.
  - apply Set_has_true_iff in E. split; [tauto | intros [?| ->]; assumption].
  - rewrite in_app_iff. simpl. intuition congruence.
Qed.

Lemma In_fold_Set_add (arr acc : list string) (y : string) :
  In y (fold_left Set_add arr acc) <-> In y acc \/ In y arr.
Proof.
  revert acc. induction arr as [|a arr IH]; intros acc; simpl.
  - tauto.
  - rewrite IH, In_Set_add. intuition congruence.
Qed.

Lemma In_Set_of (arr : list string) (y : string) :
  In y (Set_of arr) <-> In y arr.
Proof.
  unfold Set_of. rewrite In_fold_Set_add. simpl. tauto.
Qed.

(** ** Rows *)

Lemma find_none_iff {A} (f : A -> bool) (l : list A) :
  find f l = None <-> forall x, In x l -> f x = false.
Proof.
  split.
  - apply find_none.
  - induction l as [|a l IH]; simpl; intros Hall; [reflexivity|].
    rewrite (Hall a (or_introl eq_refl)). apply IH. intros x Hx. apply Hall. now right.
Qed.

Lemma Status_eqb_eq (a b : Status) : Status_eqb a b = true <-> a = b.
Proof. destruct a, b; simpl; split; congruence. Qed.

Lemma Status_eqb_neq (a b : Status) : Status_eqb a b = false <-> a <> b.
Proof. destruct a, b; simpl; split; congruence. Qed.

Section DeviceQuota.
Context `{Jsonwebtoken}.

(** C4. [quota(single) = 1] and [quota(multi) = 3]; attaching a device that
    is not bound yet to a license whose set of devices has reached the quota
    of its plan is refused (403, "Límite de dispositivos alcanzado") and the
    database, hence the set of devices, is left as it was. *)
Theorem C4_attach_beyond_quota_refused
    (db : DB) (user : Z) (deviceId : string) (lic : License)
    (Hdev : truthy deviceId = true)
    (Hlic : License_findOne (by_userId_status user active) db = Some lic)
    (Hnew : Set_has (Set_of (devices_or_empty lic)) deviceId = false)
    (Hfull : Set_size (Set_of (devices_or_empty lic)) >= limitForPlan (plan lic)) :
  limitForPlan single = 1 /\ limitForPlan multi = 3 /\
  license_devices_attach db user (Some deviceId) =
    reply (Json 403 (Error (limit_message (limitForPlan (plan lic))))) db [] /\
  db_after (license_devices_attach db user (Some deviceId)) = db.
Proof.
  assert (E : license_devices_attach db user (Some deviceId) =
    reply (Json 403 (Error (limit_message (limitForPlan (plan lic))))) db []).
  { unfold license_devices_attach. rewrite Hdev, Hlic. cbn zeta. rewrite Hnew.
    simpl negb. cbv iota.
    replace (Set_size _ >=? _) with true by (symmetry; apply Z.geb_le; lia).
    reflexivity. }
  repeat split; [exact E | rewrite E; reflexivity].
Qed.

(** C9. Attaching a device that is already among the devices of the license
    answers with the license as it is and writes nothing, whether or not
    the quota is reached; a validation request for a bound device does not
    touch the database either and is never refused for the quota. *)
Theorem C9_attach_idempotent
    (env : Env) (db : DB) (user : Z) (deviceId : string) (lic : License)
    (Hdev : truthy deviceId = true)
    (Hbound : In deviceId (devices_or_empty lic)) :
  (License_findOne (by_userId_status user active) db = Some lic ->
   license_devices_attach db user (Some deviceId) =
     reply (Json 200 (TheLicense lic)) db []) /\
  (forall now tok,
     truthy tok = true ->
     License_findOne (by_token tok) db = Some lic ->
     status lic = active -> now <= expiresAt lic ->
     db_after (public_license_validate env db now (Some tok) (Some deviceId)) = db /\
     response (public_license_validate env db now (Some tok) (Some deviceId)) =
       match signLicenseJWS_default (license_sign env)
               (sign_args lic deviceId (limitForPlan (plan lic))) now with
       | Some jws =>
           Json 200 (Validated jws (summary lic) (offline_ttl_sec env))
       | None => Json 500 (Error "Error al validar licencia")
       end).
Proof.
  assert (Hhas : Set_has (Set_of (devices_or_empty lic)) deviceId = true).
  { apply Set_has_true_iff, In_Set_of, Hbound. }
  split.
  - intros Hlic. unfold license_devices_attach.
    rewrite Hdev, Hlic. cbn zeta. rewrite Hhas. reflexivity.
  - intros now tok Htok Hlic Hact Hexp. unfold public_license_validate.
    rewrite Htok, Hdev, Hlic. simpl negb. cbv iota. cbn zeta.
    rewrite Hact. simpl Status_eqb. cbv iota. simpl negb. cbv iota.
    replace (expiresAt lic <? now) with false by (symmetry; apply Z.ltb_ge; lia).
    rewrite Hhas. simpl negb. cbv iota.
    destruct (signLicenseJWS_default _ _ _); split; reflexivity.
Qed.

(** C10. When none of the licenses of the account is [active], the
    authenticated attach answers 404 "No hay licencia activa" and writes
    nothing, whatever else the account owns. *)
Theorem C10_attach_needs_active_license
    (db : DB) (user : Z) (deviceId : string)
    (Hdev : truthy deviceId = true)
    (Hnone : forall l, In l (licenses db) -> userId l = user -> status l <> active) :
  license_devices_attach db user (Some deviceId) =
    reply (Json 404 (Error "No hay licencia activa")) db [].
Proof.
  unfold license_devices_attach. rewrite Hdev. simpl negb. cbv iota.
  replace (License_findOne (by_userId_status user active) db) with (@None License).
  - reflexivity.
  - symmetry. apply find_none_iff. intros l Hl. unfold by_userId_status.
    destruct (userId l =? user) eqn:E; [|reflexivity].
    apply Z.eqb_eq in E. apply Status_eqb_neq. now apply Hnone.
Qed.

End DeviceQuota.

(** ** Validation *)
Section Validation.
Context `{Jsonwebtoken}.
Variable env : Env.

Lemma validate_granted_inv (db : DB) (now : Z) (tok dev : string) (lic : License) :
  truthy tok = true -> truthy dev = true ->
  License_findOne (by_token tok) db = Some lic ->
  granted (response (public_license_validate env db now (Some tok) (Some dev))) ->
  status lic = active /\ now <= expiresAt lic.
Proof.
  intros Htok Hdev Hlic. unfold public_license_validate.
  rewrite Htok, Hdev, Hlic. simpl negb. cbv iota. cbn zeta.
  destruct (Status_eqb (status lic) active) eqn:Es; simpl negb; cbv iota.
  2:{ intros (j & s & t & E). discriminate E. }
  destruct (expiresAt lic <? now) eqn:Ee.
  { intros (j & s & t & E). discriminate E. }
  intros _. split; [now apply Status_eqb_eq | now apply Z.ltb_ge].
Qed.

Lemma refresh_granted_inv (db : DB) (now : Z) (tok dev : string) (lic : License) :
  truthy tok = true -> truthy dev = true ->
  License_findOne (by_token tok) db = Some lic ->
  granted (response (public_license_refresh env db now (Some tok) (Some dev))) ->
  status lic = active /\ now <= expiresAt lic.
Proof.
  intros Htok Hdev Hlic. unfold public_license_refresh.
  rewrite Htok, Hdev, Hlic. simpl negb. cbv iota. cbn zeta.
  destruct (Status_eqb (status lic) active) eqn:Es; simpl negb; cbv iota.
  2:{ intros (j & s & t & E). discriminate E. }
  destruct (expiresAt lic <? now) eqn:Ee.
  { intros (j & s & t & E). discriminate E. }
  intros _. split; [now apply Status_eqb_eq | now apply Z.ltb_ge].
Qed.

(** C1, as the code has it.  For a validation or refresh request that names
    a license by its token:
    - a license that is not [active] is refused with 403 "Licencia no activa
      (<status>)", whatever its expiry and its devices;
    - an [active] license whose [expiresAt] is strictly before now is
      refused with 403 "Licencia expirada", whatever its devices;
    - nothing is written in either case;
    - the license is granted only if it is [active] and [now <= expiresAt]. *)
Theorem C1_validation_gate
    (db : DB) (now : Z) (tok dev : string) (lic : License)
    (Htok : truthy tok = true) (Hdev : truthy dev = true)
    (Hlic : License_findOne (by_token tok) db = Some lic) :
  (status lic <> active ->
   public_license_validate env db now (Some tok) (Some dev) =
     reply (Json 403 (Error (not_active_message (status lic)))) db [] /\
   public_license_refresh env db now (Some tok) (Some dev) =
     reply (Json 403 (Error (not_active_message (status lic)))) db []) /\
  (status lic = active -> expiresAt lic < now ->
   public_license_validate env db now (Some tok) (Some dev) =
     reply (Json 403 (Error "Licencia expirada")) db [] /\
   public_license_refresh env db now (Some tok) (Some dev) =
     reply (Json 403 (Error "Licencia expirada")) db []) /\
  (granted (response (public_license_validate env db now (Some tok) (Some dev))) ->
   status lic = active /\ now <= expiresAt lic) /\
  (granted (response (public_license_refresh env db now (Some tok) (Some dev))) ->
   status lic = active /\ now <= expiresAt lic).
Proof.
  split; [|split; [|split]].
  - intros Hs. apply Status_eqb_neq in Hs.
    unfold public_license_validate, public_license_refresh.
    rewrite Htok, Hdev, Hlic. simpl negb. cbv iota. rewrite Hs. split; reflexivity.
  - intros Hs He.
    unfold public_license_validate, public_license_refresh.
    rewrite Htok, Hdev, Hlic. simpl negb. cbv iota. rewrite Hs. simpl.
    replace (expiresAt lic <? now) with true by (symmetry; apply Z.ltb_lt; lia).
    split; reflexivity.
  - now apply validate_granted_inv.
  - now apply refresh_granted_inv.
Qed.

End Validation.

(** ** Saving a row *)

Lemma findByPk_save (lic lic' : License) (db : DB) :
  In lic (licenses db) -> id lic' = id lic ->
  License_findByPk (id lic) (save lic' db) = Some lic'.
Proof.
  unfold License_findByPk, License_findOne, save, with_licenses. simpl.
  intros Hin Hid. rewrite Hid.
  induction (licenses db) as [|a ls IH]; simpl in *; [contradiction|].
  destruct (id a =? id lic) eqn:E.
  - unfold by_id. rewrite Hid, Z.eqb_refl. reflexivity.
  - unfold by_id at 1. rewrite E. apply IH.
    destruct Hin as [->|Hin]; [rewrite Z.eqb_refl in E; discriminate | exact Hin].
Qed.

Lemma findOne_In (f : License -> bool) (db : DB) (lic : License) :
  License_findOne f db = Some lic -> In lic (licenses db) /\ f lic = true.
Proof. apply find_some. Qed.

Lemma Returned_unit (r : Returned unit) :
  r = Returns tt \/ exists s, r = Throws s.
Proof. destruct r as [[]|s]; [now left | right; now exists s]. Qed.

(** ** Resuming *)
Section Resume.
Context `{Jsonwebtoken}.

(** C6, as the code has it.  A resume request for an account whose license
    has a preapproval bound asks the provider to resume it; if the provider
    accepts, the license becomes [active] whatever its status was (the
    handler does not look at it); if the provider refuses, nothing is
    written. *)
Theorem C6_resume_sets_active
    (mp : Provider) (db : DB) (user : Z) (lic : License) (p : string)
    (Hlic : License_findOne (by_userId user) db = Some lic)
    (Hpre : mpPreapprovalId lic = Some p)
    (Hp : truthy p = true) :
  (preapproval_update mp p "authorized" = Returns tt ->
   subscription_resume mp db user =
     reply (Json 200 OkMp) (save (set_status lic active) db)
       [Update p "authorized"] /\
   exists lic',
     License_findByPk (id lic) (db_after (subscription_resume mp db user))
       = Some lic' /\
     status lic' = active) /\
  (forall s, preapproval_update mp p "authorized" = Throws s ->
   subscription_resume mp db user =
     reply (Json s (Error "No se pudo reanudar la suscripción")) db
       [Update p "authorized"]).
Proof.
  assert (Hin : In lic (licenses db)) by (apply findOne_In in Hlic; tauto).
  split.
  - intros Hok.
    assert (E : subscription_resume mp db user =
      reply (Json 200 OkMp) (save (set_status lic active) db) [Update p "authorized"]).
    { unfold subscription_resume. rewrite Hlic, Hpre. simpl truthy_opt.
      rewrite Hp. simpl negb. cbv iota.
      unfold resumePreapproval. rewrite Hp. simpl negb. cbv iota.
      rewrite Hok. reflexivity. }
    split; [exact E|]. rewrite E. simpl db_after.
    exists (set_status lic active). split; [|reflexivity].
    now apply findByPk_save.
  - intros s Hs. unfold subscription_resume. rewrite Hlic, Hpre. simpl truthy_opt.
    rewrite Hp. simpl negb. cbv iota.
    unfold resumePreapproval. rewrite Hp. simpl negb. cbv iota.
    rewrite Hs. reflexivity.
Qed.

End Resume.

(** ** Events of the provider *)
Section Events.
Context `{Runtime} `{Jsonwebtoken}.

Lemma generateLicenseToken_truthy (rnd : string) (now : Z) :
  truthy (generateLicenseToken rnd now) = true.
Proof. reflexivity. Qed.

(** What the shared block of [/return] and [/webhook] makes of a license. *)
Lemma rebind_and_activate_spec (lic : License) (pre : Preapproval)
    (now : Z) (rnd : string) :
  let lic' := rebind_and_activate lic pre now rnd in
  id lic' = id lic /\
  status lic' = active /\
  mpPreapprovalId lic' = Some (pre_id pre) /\
  truthy_opt (token lic') = true /\
  (truthy_opt (token lic) = false ->
   token lic' = Some (generateLicenseToken rnd now)) /\
  (truthy_opt (token lic) = true -> token lic' = token lic) /\
  expiresAt lic' = setMonth_next now /\
  devices lic' = devices lic /\
  plan lic' = plan lic /\ userId lic' = userId lic.
Proof.
  unfold rebind_and_activate. cbn zeta. simpl token.
  destruct (truthy_opt (token lic)) eqn:Et; simpl;
    repeat split; try reflexivity; try congruence.
Qed.

Lemma webhook_unfold (mp : Provider) (db : DB) (now : Z) (rnd : string)
    (n : Notification) (dataId : string) (pre : Preapproval) :
  delivers mp n dataId pre ->
  webhook mp db now rnd n =
    match webhook_license db pre with
    | None => reply SendOK db [Fetch dataId]
    | Some lic =>
        reply SendOK (fst (webhook_apply mp db now rnd lic pre))
          (Fetch dataId :: snd (webhook_apply mp db now rnd lic pre))
    end.
Proof.
  intros (type & Ht & Htt & Hinc & Hd & Hdt & Hf).
  unfold webhook. rewrite Ht, Hd, Htt, Hdt. simpl negb. simpl orb. cbv iota.
  rewrite Hinc. unfold getPreapprovalById. rewrite Hdt. simpl negb. cbv iota.
  rewrite Hf. destruct (webhook_license db pre) as [lic|]; [|reflexivity].
  destruct (webhook_apply mp db now rnd lic pre) as [db' tr']. reflexivity.
Qed.

Lemma webhook_license_by_reference (db : DB) (pre : Preapproval) (lic : License) :
  by_reference db pre lic -> webhook_license db pre = Some lic.
Proof.
  intros (r & u & Hr & Htr & Hn & Hu & Hf).
  unfold webhook_license, reference_userId. rewrite Hr, Htr, Hn.
  simpl. apply Z.eqb_neq in Hu. rewrite Hu. simpl. rewrite Hf. reflexivity.
Qed.

Lemma webhook_license_fallback (db : DB) (pre : Preapproval) :
  (forall l, ~ by_reference db pre l) ->
  webhook_license db pre = by_subscription db pre.
Proof.
  intros Hno. unfold webhook_license, by_subscription, reference_userId.
  destruct (external_reference pre) as [r|] eqn:Hr; [|reflexivity].
  destruct (truthy r) eqn:Htr; [|reflexivity].
  destruct (Number r) as [|u|] eqn:Hn; simpl; try reflexivity.
  destruct (u =? 0) eqn:Hu; simpl; [reflexivity|].
  destruct (License_findOne (by_userId u) db) as [l|] eqn:Hf; [|reflexivity].
  exfalso. apply (Hno l). exists r, u. apply Z.eqb_neq in Hu. tauto.
Qed.

(** C7. An event is applied to the license found by its external reference
    when there is one; only when the reference finds no license, to the
    license whose stored subscription id is the id of the event; when
    neither finds a license the event is dropped: the reply is the usual
    "OK", nothing is written and the provider is not called again. *)
Theorem C7_event_resolution
    (mp : Provider) (db : DB) (now : Z) (rnd : string) (n : Notification)
    (dataId : string) (pre : Preapproval)
    (Hev : delivers mp n dataId pre) :
  (forall lic, by_reference db pre lic ->
     webhook mp db now rnd n =
       reply SendOK (fst (webhook_apply mp db now rnd lic pre))
         (Fetch dataId :: snd (webhook_apply mp db now rnd lic pre))) /\
  ((forall l, ~ by_reference db pre l) ->
   forall lic, by_subscription db pre = Some lic ->
     webhook mp db now rnd n =
       reply SendOK (fst (webhook_apply mp db now rnd lic pre))
         (Fetch dataId :: snd (webhook_apply mp db now rnd lic pre))) /\
  ((forall l, ~ by_reference db pre l) ->
   by_subscription db pre = None ->
   webhook mp db now rnd n = reply SendOK db [Fetch dataId]).
Proof.
  rewrite (webhook_unfold mp db now rnd n dataId pre Hev).
  split; [|split].
  - intros lic Hr. rewrite (webhook_license_by_reference db pre lic Hr). reflexivity.
  - intros Hno lic Hs. rewrite (webhook_license_fallback db pre Hno), Hs. reflexivity.
  - intros Hno Hs. rewrite (webhook_license_fallback db pre Hno), Hs. reflexivity.
Qed.

(** C3. Whatever the state of the license an "authorized" or "active" event
    is about, after the event the license is [active], is bound to the
    preapproval of the event, has a non-empty token (a new one if it had
    none, its own otherwise), expires one month after now, and has the
    devices it had. *)
Theorem C3_authorized_event_activates
    (mp : Provider) (db : DB) (now : Z) (rnd : string) (n : Notification)
    (dataId : string) (pre : Preapproval) (lic : License)
    (Hev : delivers mp n dataId pre)
    (Hlic : webhook_license db pre = Some lic)
    (Hst : pre_status pre = "authorized" \/ pre_status pre = "active") :
  exists lic',
    License_findByPk (id lic) (db_after (webhook mp db now rnd n)) = Some lic' /\
    status lic' = active /\
    mpPreapprovalId lic' = Some (pre_id pre) /\
    truthy_opt (token lic') = true /\
    (truthy_opt (token lic) = false ->
     token lic' = Some (generateLicenseToken rnd now)) /\
    (truthy_opt (token lic) = true -> token lic' = token lic) /\
    expiresAt lic' = setMonth_next now /\
    devices lic' = devices lic.
Proof.
  assert (Hin : In lic (licenses db)).
  { unfold webhook_license in Hlic.
    destruct (if truthy_userId (reference_userId pre)
              then License_findOne_userId (reference_userId pre) db
              else None) as [l|] eqn:E.
    - injection Hlic as ->.
      destruct (truthy_userId (reference_userId pre)); [|discriminate].
      unfold License_findOne_userId in E.
      destruct (reference_userId pre) as [[|u|]|]; try discriminate.
      apply findOne_In in E. tauto.
    - apply findOne_In in Hlic. tauto. }
  assert (Ha : authorized_or_active (pre_status pre) = true).
  { unfold authorized_or_active. destruct Hst as [-> | ->]; reflexivity. }
  rewrite (webhook_unfold mp db now rnd n dataId pre Hev), Hlic.
  unfold webhook_apply. rewrite Ha. simpl db_after.
  destruct (rebind_and_activate_spec lic pre now rnd)
    as (Hid & Hs & Hp & Ht & Hnew & Hold & He & Hd & _).
  exists (rebind_and_activate lic pre now rnd).
  split; [now apply findByPk_save|]. tauto.
Qed.

(** The same through [/return], for a license found by the reference. *)
Lemma return_authorized_activates
    (mp : Provider) (db : DB) (now : Z) (rnd : string)
    (q1 q2 q3 : option string) (i : string) (pre : Preapproval) (lic : License) :
  or_else (or_else q1 q2) q3 = Some i -> truthy i = true ->
  preapproval_fetch mp i = Returns pre ->
  pre_status pre = "authorized" \/ pre_status pre = "active" ->
  by_reference db pre lic ->
  db_after (return_ mp db now rnd q1 q2 q3) =
    save (rebind_and_activate lic pre now rnd) db /\
  response (return_ mp db now rnd q1 q2 q3) = RedirectTo (return_ok (pre_id pre)).
Proof.
  intros Hq Hi Hf Hst (r & u & Hr & Htr & Hn & Hu & Hl).
  assert (Ha : authorized_or_active (pre_status pre) = true).
  { unfold authorized_or_active. destruct Hst as [-> | ->]; reflexivity. }
  unfold return_. rewrite Hq, Hi. simpl negb. cbv iota.
  unfold getPreapprovalById. rewrite Hi. simpl negb. cbv iota. rewrite Hf.
  cbn zeta. rewrite Ha. unfold reference_userId. rewrite Hr, Htr, Hn.
  apply Z.eqb_neq in Hu. simpl. rewrite Hu. simpl. rewrite Hl. split; reflexivity.
Qed.

End Events.

(** ** The token of a license *)

Lemma same_key_same_row (ls : list License) (a b : License) :
  NoDup (map id ls) -> In a ls -> In b ls -> id a = id b -> a = b.
Proof.
  induction ls as [|x ls IH]; simpl; [contradiction|].
  intros Hnd Ha Hb Hid. inversion Hnd as [|? ? Hx Hnd']; subst.
  destruct Ha as [->|Ha], Hb as [->|Hb].
  - reflexivity.
  - exfalso. apply Hx. rewrite Hid. now apply in_map.
  - exfalso. apply Hx. rewrite <- Hid. now apply in_map.
  - now apply IH.
Qed.

Lemma findByPk_unique (db : DB) (l : License) :
  unique_ids db -> In l (licenses db) -> License_findByPk (id l) db = Some l.
Proof.
  intros Hnd Hin. unfold License_findByPk, License_findOne.
  destruct (find (by_id (id l)) (licenses db)) as [l0|] eqn:E.
  - apply find_some in E. destruct E as [Hin0 E]. unfold by_id in E.
    apply Z.eqb_eq in E. f_equal. now apply (same_key_same_row (licenses db)).
  - apply (find_none _ _ E) in Hin. unfold by_id in Hin.
    rewrite Z.eqb_refl in Hin. discriminate.
Qed.

Lemma ids_below_next (ls : list License) (l : License) :
  In l ls -> id l < next_id ls.
Proof.
  unfold next_id. induction ls as [|x ls IH]; [contradiction|].
  cbn [map fold_right]. intros [->|Hin]; [lia | specialize (IH Hin); lia].
Qed.

Lemma save_ids (lic' : License) (db : DB) :
  map id (licenses (save lic' db)) = map id (licenses db).
Proof.
  unfold save, with_licenses. simpl. rewrite map_map. apply map_ext.
  intros l. destruct (id l =? id lic') eqn:E; [|reflexivity].
  apply Z.eqb_eq in E. now symmetry.
Qed.

(** A change of the kind [evolves] keeps the keys unique and keeps every
    token that was assigned. *)
Lemma evolves_keeps_tokens (db db' : DB) :
  unique_ids db -> evolves db db' ->
  unique_ids db' /\
  forall l, In l (licenses db) -> truthy_opt (token l) = true ->
    exists l', In l' (licenses db') /\ id l' = id l /\ token l' = token l.
Proof.
  intros Hnd Hev. destruct Hev as [|lic lic' Hin Hid Htok|uid p s e pre tok].
  - split; [assumption|]. intros l Hl _. now exists l.
  - split; [unfold unique_ids; now rewrite save_ids|].
    intros l Hl Ht. unfold save, with_licenses. simpl.
    exists (if id l =? id lic' then lic' else l). split.
    + apply (in_map (fun l0 => if id l0 =? id lic' then lic' else l0)), Hl.
    + destruct (id l =? id lic') eqn:E; [|now split].
      apply Z.eqb_eq in E. split; [now symmetry|].
      assert (l = lic)
        by (apply (same_key_same_row (licenses db)); [exact Hnd | | | congruence];
            assumption).
      subst l. now apply Htok.
  - split.
    + unfold unique_ids, License_create, with_licenses. simpl.
      rewrite map_app. simpl. apply NoDup_app; [assumption | repeat constructor; intros [] |].
      intros k Hk [<-|[]]. apply in_map_iff in Hk. destruct Hk as (l & Hl & Hin).
      apply ids_below_next in Hin. lia.
    + intros l Hl _. exists l. unfold License_create, with_licenses. simpl.
      rewrite in_app_iff. tauto.
Qed.

Section Token.
Context `{Runtime} `{Jsonwebtoken}.
Variable env : Env.

Ltac found :=
  match goal with
  | E : License_findOne _ _ = Some _ |- _ =>
      exact (proj1 (findOne_In _ _ _ E))
  end.

Ltac evolve :=
  simpl db_after;
  first
    [ apply evolves_same
    | apply evolves_create
    | eapply evolves_save; [found | reflexivity | reflexivity] ].

Ltac branch :=
  cbv zeta;
  match goal with
  | |- context [match ?x with _ => _ end] => destruct x eqn:?
  end.

Lemma attach_evolves (db : DB) (u : Z) (d : option string) :
  evolves db (db_after (license_devices_attach db u d)).
Proof. unfold license_devices_attach. repeat branch; evolve. Qed.

Lemma detach_evolves (db : DB) (u : Z) (d : option string) :
  evolves db (db_after (license_devices_detach db u d)).
Proof. unfold license_devices_detach. repeat branch; evolve. Qed.

Lemma subscribe_evolves (mp : Provider) (db : DB) (now u : Z)
    (p e : option string) :
  evolves db (db_after (subscribe env mp db now u p e)).
Proof.
  unfold subscribe.
  destruct (match p with Some s => plan_of_string s | None => None end); [|evolve].
  destruct (User_findByPk db u); [|evolve].
  destruct (createSubscriptionDirect _ _ _ _ _ _) as [[[ip pid]|s] tr]; [|evolve].
  destruct (License_findOne _ db) eqn:E; evolve.
Qed.

Lemma rebind_evolves (db : DB) (lic : License) (pre : Preapproval)
    (now : Z) (rnd : string) :
  In lic (licenses db) ->
  evolves db (save (rebind_and_activate lic pre now rnd) db).
Proof.
  intros Hin.
  destruct (rebind_and_activate_spec lic pre now rnd)
    as (Hid & _ & _ & _ & _ & Hold & _).
  now apply (evolves_save db lic).
Qed.

Lemma findOne_userId_In (u : option number) (db : DB) (lic : License) :
  License_findOne_userId u db = Some lic -> In lic (licenses db).
Proof.
  unfold License_findOne_userId. destruct u as [[|z|]|]; try discriminate.
  intros E. apply findOne_In in E. tauto.
Qed.

Lemma webhook_license_In (db : DB) (pre : Preapproval) (lic : License) :
  webhook_license db pre = Some lic -> In lic (licenses db).
Proof.
  unfold webhook_license.
  destruct (truthy_userId (reference_userId pre)).
  - destruct (License_findOne_userId _ db) as [l|] eqn:E.
    + intros [= <-]. now apply findOne_userId_In in E.
    + intros E'. apply findOne_In in E'. tauto.
  - intros E'. apply findOne_In in E'. tauto.
Qed.

Lemma return_evolves (mp : Provider) (db : DB) (now : Z) (rnd : string)
    (a b c : option string) :
  evolves db (db_after (return_ mp db now rnd a b c)).
Proof.
  unfold return_.
  destruct (or_else (or_else a b) c) as [i|]; [|evolve].
  destruct (negb (truthy i)); [evolve|].
  destruct (getPreapprovalById mp i) as [[pre|s] tr]; [|evolve].
  cbn zeta.
  destruct (authorized_or_active (pre_status pre) && truthy_userId (reference_userId pre));
    [|evolve].
  destruct (License_findOne_userId _ db) as [lic|] eqn:E.
  - simpl db_after. apply rebind_evolves. now apply findOne_userId_In in E.
  - destruct (reference_userId pre) as [[|z|]|]; evolve.
Qed.

Lemma webhook_apply_evolves (mp : Provider) (db : DB) (now : Z) (rnd : string)
    (lic : License) (pre : Preapproval) :
  In lic (licenses db) ->
  evolves db (fst (webhook_apply mp db now rnd lic pre)).
Proof.
  intros Hin. unfold webhook_apply.
  destruct (authorized_or_active (pre_status pre)); simpl fst.
  - now apply rebind_evolves.
  - destruct (String.eqb (pre_status pre) "paused"); simpl fst.
    + now apply (evolves_save db lic).
    + destruct (String.eqb (pre_status pre) "cancelled"); simpl fst.
      * now apply (evolves_save db lic).
      * apply evolves_same.
Qed.

Lemma webhook_evolves (mp : Provider) (db : DB) (now : Z) (rnd : string)
    (n : Notification) :
  evolves db (db_after (webhook mp db now rnd n)).
Proof.
  unfold webhook.
  destruct (notification_type n) as [ty|]; [|evolve].
  destruct (notification_dataId n) as [d|]; [|evolve].
  destruct (negb (truthy ty) || negb (truthy d)); [evolve|].
  destruct (includes "preapproval" ty); [|evolve].
  destruct (getPreapprovalById mp d) as [[pre|s] tr]; [|evolve].
  destruct (webhook_license db pre) as [lic|] eqn:E; [|evolve].
  apply webhook_license_In in E.
  pose proof (webhook_apply_evolves mp db now rnd lic pre E) as Hev.
  destruct (webhook_apply mp db now rnd lic pre) as [db' tr']. exact Hev.
Qed.

Lemma cancel_evolves (mp : Provider) (db : DB) (u : Z) :
  evolves db (db_after (subscription_cancel mp db u)).
Proof. unfold subscription_cancel. repeat branch; evolve. Qed.

Lemma pause_evolves (mp : Provider) (db : DB) (u : Z) :
  evolves db (db_after (subscription_pause mp db u)).
Proof. unfold subscription_pause. repeat branch; evolve. Qed.

Lemma resume_evolves (mp : Provider) (db : DB) (u : Z) :
  evolves db (db_after (subscription_resume mp db u)).
Proof. unfold subscription_resume. repeat branch; evolve. Qed.

Lemma change_method_evolves (mp : Provider) (db : DB) (u : Z)
    (e p : option string) :
  evolves db (db_after (subscription_change_method env mp db u e p)).
Proof. unfold subscription_change_method. repeat branch; evolve. Qed.

Lemma validate_evolves (db : DB) (now : Z) (t d : option string) :
  evolves db (db_after (public_license_validate env db now t d)).
Proof.
  unfold public_license_validate.
  destruct t as [t|]; [|evolve]. destruct d as [d|]; [|evolve].
  destruct (negb (truthy t) || negb (truthy d)); [evolve|].
  destruct (License_findOne (by_token t) db) as [lic|] eqn:E; [|evolve].
  destruct (negb (Status_eqb (status lic) active)); [evolve|].
  destruct (expiresAt lic <? now); [evolve|]. cbn zeta.
  destruct (negb (Set_has (Set_of (devices_or_empty lic)) d)).
  - destruct (Set_size _ >=? _); [evolve|].
    destruct (signLicenseJWS_default _ _ _); evolve.
  - destruct (signLicenseJWS_default _ _ _); evolve.
Qed.

Lemma refresh_evolves (db : DB) (now : Z) (t d : option string) :
  evolves db (db_after (public_license_refresh env db now t d)).
Proof. unfold public_license_refresh. repeat branch; evolve. Qed.

(** Every request changes the table of licenses in one of the three ways. *)
Lemma handle_evolves (db : DB) (r : Request) :
  evolves db (db_after (handle env db r)).
Proof.
  destruct r; simpl handle.
  - apply attach_evolves.
  - apply detach_evolves.
  - apply subscribe_evolves.
  - apply return_evolves.
  - apply webhook_evolves.
  - apply cancel_evolves.
  - apply pause_evolves.
  - apply resume_evolves.
  - apply change_method_evolves.
  - apply validate_evolves.
  - apply refresh_evolves.
Qed.

Lemma serve_keeps_tokens (rs : list Request) (db : DB) :
  unique_ids db ->
  unique_ids (serve env db rs) /\
  forall l, In l (licenses db) -> truthy_opt (token l) = true ->
    exists l', In l' (licenses (serve env db rs)) /\
               id l' = id l /\ token l' = token l.
Proof.
  revert db. induction rs as [|r rs IH]; intros db Hnd.
  - split; [assumption|]. intros l Hl _. now exists l.
  - change (serve env db (r :: rs))
      with (serve env (db_after (handle env db r)) rs).
    destruct (evolves_keeps_tokens db _ Hnd (handle_evolves db r)) as [Hnd1 Hk1].
    destruct (IH _ Hnd1) as [Hnd2 Hk2]. split; [assumption|].
    intros l Hl Ht. destruct (Hk1 l Hl Ht) as (l1 & Hl1 & Hid1 & Ht1).
    destruct (Hk2 l1 Hl1) as (l2 & Hl2 & Hid2 & Ht2); [congruence|].
    exists l2. repeat split; congruence.
Qed.

(** C5. Once a license has a token, the license of that key has the same
    token after any sequence of requests: attaching and detaching devices,
    subscribing again, returns and notifications from the provider
    (repeated or not), cancelling, pausing, resuming, changing the payment
    method, validating and refreshing. *)
Theorem C5_token_immutable
    (db : DB) (rs : list Request) (l : License) (t : string)
    (Hkeys : unique_ids db)
    (Hl : In l (licenses db))
    (Ht : token l = Some t)
    (Hne : truthy t = true) :
  exists l',
    License_findByPk (id l) (serve env db rs) = Some l' /\ token l' = Some t.
Proof.
  destruct (serve_keeps_tokens rs db Hkeys) as [Hnd Hk].
  destruct (Hk l Hl) as (l' & Hl' & Hid & Ht'); [rewrite Ht; exact Hne|].
  exists l'. split; [|congruence].
  rewrite <- Hid. now apply findByPk_unique.
Qed.

End Token.

(** ** Signed assertions *)
Section Assertions.
Context `{Jsonwebtoken}.

(** C8. With a key pair configured, [signLicenseJWS] produces an assertion
    whose payload binds the arguments, is issued at the current second and
    expires [ttlSec] seconds later (72 hours when the validity is not
    configured); [verifyLicenseJWS] returns that payload at any time before
    the expiry and fails with [TokenExpiredError] from the expiry on. *)
Theorem C8_assertion_lifetime
    (cfg : Config) (p : SignArgs) (ttl t0 : Z)
    (Hpriv : truthy (PRIVATE_PEM cfg) = true)
    (Hpub : truthy (PUBLIC_PEM cfg) = true)
    (Hkeys : key_pair (PRIVATE_PEM cfg) (PUBLIC_PEM cfg)) :
  exists jws,
    signLicenseJWS cfg p ttl t0 = Some jws /\
    jws_payload jws = license_payload p ttl t0 /\
    iat (jws_payload jws) = t0 / 1000 /\
    exp (jws_payload jws) = iat (jws_payload jws) + ttl /\
    (forall t, t < 1000 * exp (jws_payload jws) ->
       verifyLicenseJWS cfg jws t = inl (jws_payload jws)) /\
    (forall t, 1000 * exp (jws_payload jws) <= t ->
       verifyLicenseJWS cfg jws t = inr TokenExpiredError) /\
    (LICENSE_OFFLINE_TTL_SEC cfg = None ->
       signLicenseJWS_default cfg p t0 = signLicenseJWS cfg p (72 * 3600) t0).
Proof.
  destruct (Hkeys (license_payload p ttl t0)) as (s & Hs & Hv).
  exists {| jws_payload := license_payload p ttl t0; jws_signature := s |}.
  split; [|split; [|split; [|split; [|split; [|split]]]]]; try reflexivity.
  - unfold signLicenseJWS, jwt_sign. rewrite Hpriv, Hs. reflexivity.
  - intros t Ht. unfold verifyLicenseJWS, jwt_verify. rewrite Hpub.
    cbn [negb jws_payload jws_signature] in *. rewrite Hv.
    replace (t / 1000 >=? exp (license_payload p ttl t0)) with false; [reflexivity|].
    symmetry. rewrite Z.geb_leb. apply Z.leb_gt. apply Z.div_lt_upper_bound; lia.
  - intros t Ht. unfold verifyLicenseJWS, jwt_verify. rewrite Hpub.
    cbn [negb jws_payload jws_signature] in *. rewrite Hv.
    replace (t / 1000 >=? exp (license_payload p ttl t0)) with true; [reflexivity|].
    symmetry. apply Z.geb_le. apply Z.div_le_lower_bound; lia.
  - intros Hd. unfold signLicenseJWS_default, DEFAULT_TTL_SEC. rewrite Hd. reflexivity.
Qed.

End Assertions.

(** ** Superseded subscriptions *)
Section Supersession.
Context `{Runtime}.

(** An authorized event for a license bound to another preapproval asks the
    provider to cancel the old one and rebinds, whatever the provider
    answers. *)
Lemma webhook_rebind_cancels_old
    (mp : Provider) (db : DB) (now : Z) (rnd : string)
    (lic : License) (pre : Preapproval) (old : string) :
  mpPreapprovalId lic = Some old -> truthy old = true -> old <> pre_id pre ->
  authorized_or_active (pre_status pre) = true ->
  webhook_apply mp db now rnd lic pre =
    (save (rebind_and_activate lic pre now rnd) db, [Update old "cancelled"]).
Proof.
  intros Hold Ht Hne Ha. unfold webhook_apply, cancel_superseded, cancelPreapproval.
  rewrite Ha, Hold, Ht. apply String.eqb_neq in Hne. rewrite Hne. reflexivity.
Qed.

End Supersession.

(** * Further properties of the handlers *)

(** ** Rows, once more *)

(** A row found by a [where] clause is found again after it is saved, if
    the saved row still satisfies the clause. *)
Lemma findOne_save_hit (f : License -> bool) (db : DB) (lic lic' : License) :
  License_findOne f db = Some lic -> id lic' = id lic -> f lic' = true ->
  License_findOne f (save lic' db) = Some lic'.
Proof.
  unfold License_findOne, save, with_licenses. simpl. intros Hf Hid Hl.
  induction (licenses db) as [|a ls IH]; simpl in *; [discriminate|].
  destruct (f a) eqn:Ea.
  - injection Hf as ->. rewrite Hid, Z.eqb_refl, Hl. reflexivity.
  - destruct (id a =? id lic'); [now rewrite Hl|]. rewrite Ea. now apply IH.
Qed.

(** A clause that finds nothing finds nothing after a save that does not
    change how the clause reads the saved row. *)
Lemma findOne_save_miss (f : License -> bool) (db : DB) (lic lic' : License) :
  License_findOne f db = None -> In lic (licenses db) ->
  f lic' = f lic ->
  License_findOne f (save lic' db) = None.
Proof.
  unfold License_findOne, save, with_licenses. simpl. intros Hf Hin Hl.
  apply find_none_iff. intros x Hx. apply in_map_iff in Hx.
  destruct Hx as (l & <- & Hl0).
  destruct (id l =? id lic').
  - rewrite Hl. now apply (find_none _ _ Hf).
  - now apply (find_none _ _ Hf).
Qed.

Lemma save_save (lic' : License) (db : DB) :
  save lic' (save lic' db) = save lic' db.
Proof.
  unfold save, with_licenses. simpl. f_equal. rewrite map_map. apply map_ext.
  intros l. destruct (id l =? id lic') eqn:E; [|now rewrite E].
  now rewrite Z.eqb_refl.
Qed.

(** ** Sets of devices, once more *)

Lemma Set_has_false_iff (s : list string) (x : string) :
  Set_has s x = false <-> ~ In x s.
Proof.
  rewrite <- Set_has_true_iff. destruct (Set_has s x); split; congruence.
Qed.

Lemma fold_Set_add_NoDup (arr acc : list string) :
  NoDup acc -> NoDup (fold_left Set_add arr acc).
Proof.
  revert acc. induction arr as [|a arr IH]; intros acc Hnd; simpl; [assumption|].
  apply IH. unfold Set_add. destruct (Set_has acc a) eqn:E; [assumption|].
  apply Set_has_false_iff in E.
  apply NoDup_app; [assumption | repeat constructor; intros [] |].
  intros x Hx [<-|[]]. contradiction.
Qed.

(** [new Set(arr)] has no duplicates. *)
Lemma Set_of_NoDup (arr : list string) : NoDup (Set_of arr).
Proof. apply fold_Set_add_NoDup. constructor. Qed.

Lemma fold_Set_add_fresh (arr acc : list string) :
  NoDup (acc ++ arr) -> fold_left Set_add arr acc = acc ++ arr.
Proof.
  revert acc. induction arr as [|a arr IH]; intros acc Hnd; simpl.
  - now rewrite app_nil_r.
  - assert (Ha : Set_has acc a = false).
    { apply Set_has_false_iff. intros Hin.
      apply NoDup_remove_2 in Hnd. apply Hnd. rewrite in_app_iff. now left. }
    unfold Set_add at 2. rewrite Ha.
    rewrite IH; rewrite <- app_assoc; [reflexivity | exact Hnd].
Qed.

(** An array without duplicates is its own set, in the same order. *)
Lemma Set_of_fixed (arr : list string) : NoDup arr -> Set_of arr = arr.
Proof. intros Hnd. unfold Set_of. now rewrite fold_Set_add_fresh. Qed.

Lemma Set_add_fresh (s : list string) (x : string) :
  Set_has s x = false -> Set_add s x = s ++ [x].
Proof. intros E. unfold Set_add. now rewrite E. Qed.

Lemma NoDup_snoc (s : list string) (x : string) :
  NoDup s -> ~ In x s -> NoDup (s ++ [x]).
Proof.
  intros Hnd Hx. apply NoDup_app; [assumption | repeat constructor; intros [] |].
  intros y Hy [<-|[]]. contradiction.
Qed.

Lemma filter_shorter {A} (f : A -> bool) (l : list A) (x : A) :
  In x l -> f x = false -> (List.length (filter f l) < List.length l)%nat.
Proof.
  induction l as [|a l IH]; simpl; [contradiction|].
  intros [->|Hin] Hf.
  - rewrite Hf. pose proof (filter_length_le f l). lia.
  - specialize (IH Hin Hf). destruct (f a); simpl; lia.
Qed.

Lemma devices_or_empty_set (l : License) (ds : list string) :
  devices_or_empty (set_devices l (Some ds)) = ds.
Proof. reflexivity. Qed.

(** ** Devices *)
Section Devices.
Context `{Jsonwebtoken}.

Lemma attach_new_eq
    (db : DB) (user : Z) (d : string) (lic : License) :
  truthy d = true ->
  License_findOne (by_userId_status user active) db = Some lic ->
  ~ In d (devices_or_empty lic) ->
  Set_size (Set_of (devices_or_empty lic)) < limitForPlan (plan lic) ->
  license_devices_attach db user (Some d) =
    reply (Json 200 (TheLicense
                       (set_devices lic (Some (Set_of (devices_or_empty lic) ++ [d])))))
      (save (set_devices lic (Some (Set_of (devices_or_empty lic) ++ [d]))) db) [].
Proof.
  intros Hdev Hlic Hnew Hroom.
  assert (Hhas : Set_has (Set_of (devices_or_empty lic)) d = false).
  { apply Set_has_false_iff. now rewrite In_Set_of. }
  unfold license_devices_attach. rewrite Hdev, Hlic. cbn zeta. rewrite Hhas.
  simpl negb. cbv iota.
  replace (Set_size _ >=? _) with false
    by (symmetry; rewrite Z.geb_leb; apply Z.leb_gt; lia).
  rewrite (Set_add_fresh _ _ Hhas). reflexivity.
Qed.

Lemma detach_eq (db : DB) (user : Z) (d : string) (lic : License) :
  License_findOne (by_userId user) db = Some lic ->
  license_devices_detach db user (Some d) =
    reply (Json 200 (TheLicense
                       (set_devices lic
                          (Some (filter (fun x => negb (String.eqb x d))
                                   (devices_or_empty lic))))))
      (save (set_devices lic
               (Some (filter (fun x => negb (String.eqb x d))
                        (devices_or_empty lic)))) db) [].
Proof. intros Hlic. unfold license_devices_detach. rewrite Hlic. reflexivity. Qed.

(** Attaching a new device to a license with room: the device is appended
    to the set of devices, the license of that key is the updated one, and
    what is stored has no duplicates, holds the device and is within the
    limit of the plan. *)
Theorem attach_binds_new_device
    (db : DB) (user : Z) (d : string) (lic : License)
    (Hdev : truthy d = true)
    (Hlic : License_findOne (by_userId_status user active) db = Some lic)
    (Hnew : ~ In d (devices_or_empty lic))
    (Hroom : Set_size (Set_of (devices_or_empty lic)) < limitForPlan (plan lic)) :
  let lic' := set_devices lic (Some (Set_of (devices_or_empty lic) ++ [d])) in
  license_devices_attach db user (Some d) =
    reply (Json 200 (TheLicense lic')) (save lic' db) [] /\
  License_findByPk (id lic) (save lic' db) = Some lic' /\
  NoDup (devices_or_empty lic') /\
  In d (devices_or_empty lic') /\
  Z.of_nat (List.length (devices_or_empty lic')) <= limitForPlan (plan lic').
Proof.
  cbv zeta. split; [|split; [|split; [|split]]].
  - now apply attach_new_eq.
  - apply findByPk_save; [|reflexivity]. apply findOne_In in Hlic. tauto.
  - rewrite devices_or_empty_set.
    apply NoDup_snoc; [apply Set_of_NoDup|]. now rewrite In_Set_of.
  - rewrite devices_or_empty_set, in_app_iff. right. now left.
  - rewrite devices_or_empty_set, length_app. unfold Set_size in Hroom.
    cbn [List.length plan set_devices]. lia.
Qed.

(** Whatever the request, [attach] either writes nothing or writes one
    license whose devices have no duplicates and are within the limit of
    its plan. *)
Theorem attach_never_exceeds_limit
    (db : DB) (user : Z) (d : option string) :
  db_after (license_devices_attach db user d) = db \/
  exists lic',
    db_after (license_devices_attach db user d) = save lic' db /\
    response (license_devices_attach db user d) = Json 200 (TheLicense lic') /\
    NoDup (devices_or_empty lic') /\
    Z.of_nat (List.length (devices_or_empty lic')) <= limitForPlan (plan lic').
Proof.
  unfold license_devices_attach.
  destruct d as [d|]; [|now left].
  destruct (negb (truthy d)); [now left|].
  destruct (License_findOne _ db) as [lic|]; [|now left]. cbn zeta.
  destruct (Set_has (Set_of (devices_or_empty lic)) d) eqn:Hhas; [now left|].
  destruct (Set_size _ >=? _) eqn:Hsz; [now left|].
  right. eexists. split; [reflexivity|]. split; [reflexivity|].
  rewrite (Set_add_fresh _ _ Hhas), devices_or_empty_set. split.
  - apply NoDup_snoc; [apply Set_of_NoDup | now apply Set_has_false_iff].
  - rewrite length_app. rewrite Z.geb_leb in Hsz. apply Z.leb_gt in Hsz.
    unfold Set_size in Hsz. cbn [List.length plan set_devices]. lia.
Qed.

(** Detaching removes the device and nothing else from the license of the
    account, whatever the status of the license; detaching again changes
    nothing. *)
Theorem detach_removes_device
    (db : DB) (user : Z) (d : string) (lic : License)
    (Hlic : License_findOne (by_userId user) db = Some lic) :
  let lic' := set_devices lic
                (Some (filter (fun x => negb (String.eqb x d))
                         (devices_or_empty lic))) in
  license_devices_detach db user (Some d) =
    reply (Json 200 (TheLicense lic')) (save lic' db) [] /\
  ~ In d (devices_or_empty lic') /\
  (forall x, x <> d ->
     (In x (devices_or_empty lic') <-> In x (devices_or_empty lic))) /\
  license_devices_detach (save lic' db) user (Some d) =
    reply (Json 200 (TheLicense lic')) (save lic' db) [].
Proof.
  cbv zeta. split; [|split; [|split]].
  - now apply detach_eq.
  - rewrite devices_or_empty_set, filter_In. intros [_ E].
    now rewrite String.eqb_refl in E.
  - intros x Hx. rewrite devices_or_empty_set, filter_In.
    apply String.eqb_neq in Hx. rewrite Hx. simpl. tauto.
  - unfold license_devices_detach.
    rewrite (findOne_save_hit (by_userId user) db lic
               (set_devices lic
                  (Some (filter (fun x => negb (String.eqb x d))
                           (devices_or_empty lic))))
               Hlic eq_refl)
      by (apply findOne_In in Hlic; exact (proj2 Hlic)).
    cbn zeta. rewrite devices_or_empty_set.
    assert (E : filter (fun x => negb (String.eqb x d))
                  (filter (fun x => negb (String.eqb x d)) (devices_or_empty lic))
                = filter (fun x => negb (String.eqb x d)) (devices_or_empty lic)).
    { induction (devices_or_empty lic) as [|a l IH]; simpl; [reflexivity|].
      destruct (negb (String.eqb a d)) eqn:Ea; simpl; [rewrite Ea; now f_equal | exact IH]. }
    rewrite E.
    change (set_devices (set_devices lic _) ?v) with (set_devices lic v).
    now rewrite save_save.
Qed.

(** Detaching a bound device from a license at its limit makes room:
    attaching another device right after succeeds. *)
Theorem detach_then_attach
    (db : DB) (user : Z) (d d' : string) (lic : License) (ds : list string)
    (Hlic : License_findOne (by_userId user) db = Some lic)
    (Hact : status lic = active)
    (Hds : devices lic = Some ds)
    (Hnd : NoDup ds)
    (Hfull : Z.of_nat (List.length ds) <= limitForPlan (plan lic))
    (Hd : In d ds)
    (Hd' : truthy d' = true)
    (Hnew : ~ In d' ds) :
  let rest := filter (fun x => negb (String.eqb x d)) ds in
  let db1 := db_after (license_devices_detach db user (Some d)) in
  license_devices_attach db1 user (Some d') =
    reply (Json 200 (TheLicense (set_devices lic (Some (rest ++ [d'])))))
      (save (set_devices lic (Some (rest ++ [d']))) db1) [].
Proof.
  cbv zeta.
  pose proof (detach_eq db user d lic Hlic) as E.
  rewrite E. simpl db_after. unfold devices_or_empty. rewrite Hds.
  set (rest := filter (fun x => negb (String.eqb x d)) ds).
  set (lic1 := set_devices lic (Some rest)).
  assert (Hnd1 : NoDup rest) by (apply NoDup_filter, Hnd).
  assert (Hf : License_findOne (by_userId_status user active) (save lic1 db) = Some lic1).
  { apply (findOne_save_hit _ db lic); [|reflexivity|].
    - unfold License_findOne in *. clear E.
      induction (licenses db) as [|a ls IH]; simpl in *; [discriminate|].
      unfold by_userId_status at 1. unfold by_userId in Hlic at 1.
      destruct (userId a =? user); simpl.
      + injection Hlic as ->. now rewrite Hact.
      + now apply IH.
    - apply findOne_In in Hlic. destruct Hlic as [_ Hu]. unfold by_userId in Hu.
      unfold by_userId_status. simpl. rewrite Hu, Hact. reflexivity. }
  assert (Hnew1 : ~ In d' (devices_or_empty lic1)).
  { unfold lic1. rewrite devices_or_empty_set. unfold rest.
    rewrite filter_In. tauto. }
  assert (Hroom : Set_size (Set_of (devices_or_empty lic1)) < limitForPlan (plan lic1)).
  { unfold lic1. rewrite devices_or_empty_set, (Set_of_fixed rest Hnd1).
    unfold Set_size, rest. cbn [plan set_devices].
    assert (Hdd : negb (String.eqb d d) = false) by now rewrite String.eqb_refl.
    pose proof (filter_shorter (fun x => negb (String.eqb x d)) ds d Hd Hdd). lia. }
  pose proof (attach_new_eq (save lic1 db) user d' lic1 Hd' Hf Hnew1 Hroom) as E1.
  rewrite E1. unfold lic1. rewrite devices_or_empty_set, (Set_of_fixed rest Hnd1).
  reflexivity.
Qed.

End Devices.

(** ** Validation and refresh *)
Section Binding.
Context `{Jsonwebtoken}.
Variable env : Env.

(** A validation request for a new device, on a usable license whose set
    of devices has reached the limit, is refused with 403 and writes
    nothing. *)
Theorem validate_beyond_quota_refused
    (db : DB) (now : Z) (tok d : string) (lic : License)
    (Htok : truthy tok = true) (Hdev : truthy d = true)
    (Hlic : License_findOne (by_token tok) db = Some lic)
    (Hact : status lic = active) (Hexp : now <= expiresAt lic)
    (Hnew : ~ In d (devices_or_empty lic))
    (Hfull : limitForPlan (plan lic) <= Set_size (Set_of (devices_or_empty lic))) :
  public_license_validate env db now (Some tok) (Some d) =
    reply (Json 403 (Error (limit_message (limitForPlan (plan lic))))) db [].
Proof.
  assert (Hhas : Set_has (Set_of (devices_or_empty lic)) d = false).
  { apply Set_has_false_iff. now rewrite In_Set_of. }
  unfold public_license_validate.
  rewrite Htok, Hdev, Hlic, Hact. simpl negb. simpl orb. cbv iota.
  simpl Status_eqb. simpl negb. cbv iota.
  replace (expiresAt lic <? now) with false by (symmetry; apply Z.ltb_ge; lia).
  cbn zeta. rewrite Hhas. simpl negb. cbv iota.
  replace (Set_size _ >=? _) with true by (symmetry; apply Z.geb_le; lia).
  reflexivity.
Qed.

Lemma validate_new_eq
    (db : DB) (now : Z) (tok d : string) (lic : License) :
  truthy tok = true -> truthy d = true ->
  License_findOne (by_token tok) db = Some lic ->
  status lic = active -> now <= expiresAt lic ->
  ~ In d (devices_or_empty lic) ->
  Set_size (Set_of (devices_or_empty lic)) < limitForPlan (plan lic) ->
  public_license_validate env db now (Some tok) (Some d) =
    reply
      match signLicenseJWS_default (license_sign env)
              (sign_args (set_devices lic (Some (Set_of (devices_or_empty lic) ++ [d])))
                 d (limitForPlan (plan lic))) now with
      | Some jws =>
          Json 200 (Validated jws
                      (summary (set_devices lic
                                  (Some (Set_of (devices_or_empty lic) ++ [d]))))
                      (offline_ttl_sec env))
      | None => Json 500 (Error "Error al validar licencia")
      end
      (save (set_devices lic (Some (Set_of (devices_or_empty lic) ++ [d]))) db) [].
Proof.
  intros Htok Hdev Hlic Hact Hexp Hnew Hroom.
  assert (Hhas : Set_has (Set_of (devices_or_empty lic)) d = false).
  { apply Set_has_false_iff. now rewrite In_Set_of. }
  unfold public_license_validate.
  rewrite Htok, Hdev, Hlic, Hact. simpl negb. simpl orb. cbv iota.
  simpl Status_eqb. simpl negb. cbv iota.
  replace (expiresAt lic <? now) with false by (symmetry; apply Z.ltb_ge; lia).
  cbn zeta. rewrite Hhas. simpl negb. cbv iota.
  replace (Set_size _ >=? _) with false
    by (symmetry; rewrite Z.geb_leb; apply Z.leb_gt; lia).
  rewrite (Set_add_fresh _ _ Hhas).
  destruct (signLicenseJWS_default _ _ _); reflexivity.
Qed.

Lemma validate_bound_eq
    (db : DB) (now : Z) (tok d : string) (lic : License) (ds : list string) :
  truthy tok = true -> truthy d = true ->
  License_findOne (by_token tok) db = Some lic ->
  status lic = active -> now <= expiresAt lic ->
  devices lic = Some ds -> In d ds ->
  public_license_validate env db now (Some tok) (Some d) =
    reply
      match signLicenseJWS_default (license_sign env)
              (sign_args lic d (limitForPlan (plan lic))) now with
      | Some jws => Json 200 (Validated jws (summary lic) (offline_ttl_sec env))
      | None => Json 500 (Error "Error al validar licencia")
      end db [].
Proof.
  intros Htok Hdev Hlic Hact Hexp Hds Hd.
  assert (Hhas : Set_has (Set_of (devices_or_empty lic)) d = true).
  { apply Set_has_true_iff, In_Set_of. unfold devices_or_empty. now rewrite Hds. }
  unfold public_license_validate.
  rewrite Htok, Hdev, Hlic, Hact. simpl negb. simpl orb. cbv iota.
  simpl Status_eqb. simpl negb. cbv iota.
  replace (expiresAt lic <? now) with false by (symmetry; apply Z.ltb_ge; lia).
  cbn zeta. rewrite Hhas. simpl negb. cbv iota.
  destruct (signLicenseJWS_default _ _ _); reflexivity.
Qed.

Lemma refresh_bound_eq
    (db : DB) (now : Z) (tok d : string) (lic : License) (ds : list string) :
  truthy tok = true -> truthy d = true ->
  License_findOne (by_token tok) db = Some lic ->
  status lic = active -> now <= expiresAt lic ->
  devices lic = Some ds -> In d ds ->
  public_license_refresh env db now (Some tok) (Some d) =
    reply
      match signLicenseJWS_default (license_sign env)
              (sign_args lic d (limitForPlan (plan lic))) now with
      | Some jws => Json 200 (Validated jws (summary lic) (offline_ttl_sec env))
      | None => Json 500 (Error "Error al refrescar licencia")
      end db [].
Proof.
  intros Htok Hdev Hlic Hact Hexp Hds Hd.
  assert (Hinc : array_includes ds d = true).
  { apply (Set_has_true_iff ds d). exact Hd. }
  unfold public_license_refresh.
  rewrite Htok, Hdev, Hlic, Hact. simpl negb. simpl orb. cbv iota.
  simpl Status_eqb. simpl negb. cbv iota.
  replace (expiresAt lic <? now) with false by (symmetry; apply Z.ltb_ge; lia).
  rewrite Hds, Hinc. simpl negb. cbv iota. cbn zeta.
  destruct (signLicenseJWS_default _ _ _); reflexivity.
Qed.

(** A validation request for a new device, on a usable license with room,
    binds the device: the license is saved with the device appended, and the
    reply carries the updated license.  The device is bound before the
    assertion is signed, so it stays bound when signing fails and the reply
    is 500. *)
Theorem validate_binds_new_device
    (db : DB) (now : Z) (tok d : string) (lic : License)
    (Htok : truthy tok = true) (Hdev : truthy d = true)
    (Hlic : License_findOne (by_token tok) db = Some lic)
    (Hact : status lic = active) (Hexp : now <= expiresAt lic)
    (Hnew : ~ In d (devices_or_empty lic))
    (Hroom : Set_size (Set_of (devices_or_empty lic)) < limitForPlan (plan lic)) :
  let lic' := set_devices lic (Some (Set_of (devices_or_empty lic) ++ [d])) in
  db_after (public_license_validate env db now (Some tok) (Some d)) = save lic' db /\
  response (public_license_validate env db now (Some tok) (Some d)) =
    match signLicenseJWS_default (license_sign env)
            (sign_args lic' d (limitForPlan (plan lic))) now with
    | Some jws => Json 200 (Validated jws (summary lic') (offline_ttl_sec env))
    | None => Json 500 (Error "Error al validar licencia")
    end /\
  License_findOne (by_token tok) (save lic' db) = Some lic' /\
  In d (devices_or_empty lic') /\
  Z.of_nat (List.length (devices_or_empty lic')) <= limitForPlan (plan lic').
Proof.
  cbv zeta.
  rewrite (validate_new_eq db now tok d lic Htok Hdev Hlic Hact Hexp Hnew Hroom).
  split; [reflexivity|]. split; [reflexivity|]. split; [|split].
  - apply (findOne_save_hit _ db lic); [assumption | reflexivity |].
    apply findOne_In in Hlic. exact (proj2 Hlic).
  - rewrite devices_or_empty_set, in_app_iff. right. now left.
  - rewrite devices_or_empty_set, length_app. unfold Set_size in Hroom.
    cbn [List.length plan set_devices]. lia.
Qed.

(** A refresh for a device that is among the devices of a usable license is
    accepted: the reply carries an assertion for the license as stored (or
    is a 500 when signing fails), and nothing is written. *)
Theorem refresh_accepts_bound_device
    (db : DB) (now : Z) (tok d : string) (lic : License) (ds : list string)
    (Htok : truthy tok = true) (Hdev : truthy d = true)
    (Hlic : License_findOne (by_token tok) db = Some lic)
    (Hact : status lic = active) (Hexp : now <= expiresAt lic)
    (Hds : devices lic = Some ds) (Hd : In d ds) :
  public_license_refresh env db now (Some tok) (Some d) =
    reply
      match signLicenseJWS_default (license_sign env)
              (sign_args lic d (limitForPlan (plan lic))) now with
      | Some jws => Json 200 (Validated jws (summary lic) (offline_ttl_sec env))
      | None => Json 500 (Error "Error al refrescar licencia")
      end db [].
Proof.
  assert (Hinc : array_includes ds d = true).
  { apply (Set_has_true_iff ds d). exact Hd. }
  unfold public_license_refresh.
  rewrite Htok, Hdev, Hlic, Hact. simpl negb. simpl orb. cbv iota.
  simpl Status_eqb. simpl negb. cbv iota.
  replace (expiresAt lic <? now) with false by (symmetry; apply Z.ltb_ge; lia).
  rewrite Hds, Hinc. simpl negb. cbv iota. cbn zeta.
  destruct (signLicenseJWS_default _ _ _); reflexivity.
Qed.

(** A refresh right after a validation that bound the device is accepted:
    the device that [/validate] stored is the one [/refresh] looks for. *)
Theorem validate_then_refresh
    (db : DB) (now now' : Z) (tok d : string) (lic : License)
    (Htok : truthy tok = true) (Hdev : truthy d = true)
    (Hlic : License_findOne (by_token tok) db = Some lic)
    (Hact : status lic = active)
    (Hexp : now <= expiresAt lic) (Hexp' : now' <= expiresAt lic)
    (Hnew : ~ In d (devices_or_empty lic))
    (Hroom : Set_size (Set_of (devices_or_empty lic)) < limitForPlan (plan lic)) :
  let db1 := db_after (public_license_validate env db now (Some tok) (Some d)) in
  let lic' := set_devices lic (Some (Set_of (devices_or_empty lic) ++ [d])) in
  public_license_refresh env db1 now' (Some tok) (Some d) =
    reply
      match signLicenseJWS_default (license_sign env)
              (sign_args lic' d (limitForPlan (plan lic))) now' with
      | Some jws => Json 200 (Validated jws (summary lic') (offline_ttl_sec env))
      | None => Json 500 (Error "Error al refrescar licencia")
      end db1 [] /\
  db_after (public_license_validate env db1 now' (Some tok) (Some d)) = db1.
Proof.
  cbv zeta.
  rewrite (validate_new_eq db now tok d lic Htok Hdev Hlic Hact Hexp Hnew Hroom).
  cbn [db_after reply].
  set (lic' := set_devices lic (Some (Set_of (devices_or_empty lic) ++ [d]))).
  assert (Hf : License_findOne (by_token tok) (save lic' db) = Some lic').
  { apply (findOne_save_hit _ db lic); [assumption | reflexivity |].
    apply findOne_In in Hlic. exact (proj2 Hlic). }
  assert (Hin : In d (Set_of (devices_or_empty lic) ++ [d])).
  { rewrite in_app_iff. right. now left. }
  split.
  - exact (refresh_bound_eq (save lic' db) now' tok d lic' _
             Htok Hdev Hf Hact Hexp' eq_refl Hin).
  - rewrite (validate_bound_eq (save lic' db) now' tok d lic' _
               Htok Hdev Hf Hact Hexp' eq_refl Hin).
    reflexivity.
Qed.

(** [/refresh] never writes and never binds: a device that is not among
    the devices of a usable license is refused with 403, even when the
    license has room for it. *)
Theorem refresh_never_binds
    (db : DB) (now : Z) (tok d : option string) :
  db_after (public_license_refresh env db now tok d) = db /\
  calls (public_license_refresh env db now tok d) = [] /\
  (forall tok' d' lic,
     tok = Some tok' -> d = Some d' ->
     truthy tok' = true -> truthy d' = true ->
     License_findOne (by_token tok') db = Some lic ->
     status lic = active -> now <= expiresAt lic ->
     ~ In d' (devices_or_empty lic) ->
     response (public_license_refresh env db now tok d) =
       Json 403 (Error "Este dispositivo no está vinculado a la licencia")).
Proof.
  split; [|split].
  - unfold public_license_refresh.
    repeat match goal with
           | |- context [match ?x with _ => _ end] => destruct x
           end; reflexivity.
  - unfold public_license_refresh.
    repeat match goal with
           | |- context [match ?x with _ => _ end] => destruct x
           end; reflexivity.
  - intros tok' d' lic -> -> Htok Hdev Hlic Hact Hexp Hnew.
    unfold public_license_refresh.
    rewrite Htok, Hdev, Hlic, Hact. simpl negb. simpl orb. cbv iota.
    simpl Status_eqb. simpl negb. cbv iota.
    replace (expiresAt lic <? now) with false by (symmetry; apply Z.ltb_ge; lia).
    unfold devices_or_empty in Hnew.
    destruct (devices lic) as [ds|]; [|reflexivity].
    replace (array_includes ds d') with false; [reflexivity|].
    symmetry. apply (Set_has_false_iff ds d'). exact Hnew.
Qed.

(** Whatever the request, [/validate] either writes nothing or writes one
    license whose devices have no duplicates and are within the limit of
    its plan. *)
Theorem validate_never_exceeds_limit
    (db : DB) (now : Z) (tok d : option string) :
  db_after (public_license_validate env db now tok d) = db \/
  exists lic',
    db_after (public_license_validate env db now tok d) = save lic' db /\
    NoDup (devices_or_empty lic') /\
    Z.of_nat (List.length (devices_or_empty lic')) <= limitForPlan (plan lic').
Proof.
  unfold public_license_validate.
  destruct tok as [tok|]; [|now left]. destruct d as [d|]; [|now left].
  destruct (negb (truthy tok) || negb (truthy d)); [now left|].
  destruct (License_findOne _ db) as [lic|]; [|now left].
  destruct (negb (Status_eqb (status lic) active)); [now left|].
  destruct (expiresAt lic <? now); [now left|]. cbn zeta.
  destruct (Set_has (Set_of (devices_or_empty lic)) d) eqn:Hhas; simpl negb; cbv iota.
  - left. destruct (signLicenseJWS_default _ _ _); reflexivity.
  - destruct (Set_size _ >=? _) eqn:Hsz; [now left|].
    right. exists (set_devices lic (Some (Set_add (Set_of (devices_or_empty lic)) d))).
    split; [destruct (signLicenseJWS_default _ _ _); reflexivity|].
    rewrite (Set_add_fresh _ _ Hhas), devices_or_empty_set. split.
    + apply NoDup_snoc; [apply Set_of_NoDup | now apply Set_has_false_iff].
    + rewrite length_app. rewrite Z.geb_leb in Hsz. apply Z.leb_gt in Hsz.
      unfold Set_size in Hsz. cbn [List.length plan set_devices]. lia.
Qed.

(** What a granted validation has done: it has signed, with the default
    validity, the arguments of a license that bears the token and is
    active, and replies with the summary of that license. *)
Lemma validate_granted_shape
    (db : DB) (now : Z) (tk d : string) (jws : JWS) (s : Summary) (ttl : Z) :
  truthy tk = true -> truthy d = true ->
  response (public_license_validate env db now (Some tk) (Some d)) =
    Json 200 (Validated jws s ttl) ->
  exists lic0,
    by_token tk lic0 = true /\ status lic0 = active /\
    signLicenseJWS_default (license_sign env)
      (sign_args lic0 d (limitForPlan (plan lic0))) now = Some jws /\
    s = summary lic0 /\ ttl = offline_ttl_sec env.
Proof.
  intros Htk Hd. unfold public_license_validate. rewrite Htk, Hd.
  simpl negb. simpl orb. cbv iota.
  destruct (License_findOne (by_token tk) db) as [lic|] eqn:Hlic; [|discriminate].
  apply findOne_In in Hlic. destruct Hlic as [_ Hby].
  destruct (Status_eqb (status lic) active) eqn:Hs; simpl negb; cbv iota;
    [|discriminate].
  apply Status_eqb_eq in Hs.
  destruct (expiresAt lic <? now); [discriminate|]. cbn zeta.
  destruct (negb (Set_has (Set_of (devices_or_empty lic)) d)).
  - destruct (Set_size _ >=? _); [discriminate|].
    destruct (signLicenseJWS_default _ _ _) as [j|] eqn:Hj; [|discriminate].
    intros [= <- <- <-].
    exists (set_devices lic (Some (Set_add (Set_of (devices_or_empty lic)) d))).
    repeat split; assumption.
  - destruct (signLicenseJWS_default _ _ _) as [j|] eqn:Hj; [|discriminate].
    intros [= <- <- <-]. exists lic. repeat split; assumption.
Qed.

(** With a key pair configured, the assertion of a granted validation
    verifies under the published key until its expiry, and what it asserts
    is the request and the license of the reply: the device, the token, the
    key and plan of the license, the limit of the plan, and a validity of
    [offline_ttl_sec] seconds. *)
Theorem granted_assertion_verifies
    (db : DB) (now : Z) (tk d : string)
    (jws : JWS) (s : Summary) (ttl : Z)
    (Htk : truthy tk = true) (Hdev : truthy d = true)
    (Hpub : truthy (PUBLIC_PEM (license_sign env)) = true)
    (Hkeys : key_pair (PRIVATE_PEM (license_sign env)) (PUBLIC_PEM (license_sign env)))
    (Hok : response (public_license_validate env db now (Some tk) (Some d)) =
             Json 200 (Validated jws s ttl)) :
  (forall t, t < 1000 * exp (jws_payload jws) ->
     verifyLicenseJWS (license_sign env) jws t = inl (jws_payload jws)) /\
  dev (jws_payload jws) = d /\
  tok (jws_payload jws) = Some tk /\
  lic (jws_payload jws) = s_id s /\
  pl_plan (jws_payload jws) = s_plan s /\
  sta (jws_payload jws) = active /\
  max (jws_payload jws) = limitForPlan (s_plan s) /\
  iat (jws_payload jws) = now / 1000 /\
  exp (jws_payload jws) = iat (jws_payload jws) + ttl /\
  ttl = offline_ttl_sec env.
Proof.
  destruct (validate_granted_shape db now tk d jws s ttl Htk Hdev Hok)
    as (lic0 & Hby & Hact & Hsign & -> & ->).
  unfold signLicenseJWS_default, signLicenseJWS, jwt_sign in Hsign.
  destruct (negb (truthy (PRIVATE_PEM (license_sign env)))); [discriminate|].
  destruct (Hkeys (license_payload (sign_args lic0 d (limitForPlan (plan lic0)))
                     (DEFAULT_TTL_SEC (license_sign env)) now))
    as (sg & Hsg & Hv).
  rewrite Hsg in Hsign. injection Hsign as <-.
  cbn [jws_payload]. split; [|repeat split; try reflexivity].
  - intros t Ht. unfold verifyLicenseJWS, jwt_verify. rewrite Hpub.
    cbn [negb jws_payload jws_signature] in *. rewrite Hv.
    replace (t / 1000 >=? _) with false; [reflexivity|].
    symmetry. rewrite Z.geb_leb. apply Z.leb_gt. apply Z.div_lt_upper_bound; lia.
  - cbn. unfold by_token in Hby. destruct (token lic0) as [t0|]; [|discriminate].
    apply String.eqb_eq in Hby. now subst.
  - cbn. exact Hact.
Qed.

End Binding.

(** ** Notifications and returns *)
Section MoreEvents.
Context `{Runtime} `{Jsonwebtoken}.

Lemma cancel_superseded_calls (mp : Provider) (lic : License) (pre : Preapproval) :
  cancel_superseded mp lic pre = [] \/
  exists old, mpPreapprovalId lic = Some old /\ old <> pre_id pre /\
              cancel_superseded mp lic pre = [Update old "cancelled"].
Proof.
  unfold cancel_superseded, cancelPreapproval.
  destruct (mpPreapprovalId lic) as [old|]; [|now left].
  destruct (truthy old) eqn:Ht; simpl; [|now left].
  destruct (String.eqb old (pre_id pre)) eqn:E; simpl; [now left|].
  right. exists old. apply String.eqb_neq in E. repeat split; assumption.
Qed.

(** [/webhook] always answers "OK", whatever it is sent and whatever the
    provider does; the only calls it makes to the provider are one read of
    the preapproval and at most one cancellation, never one of the
    preapproval the event is about. *)
Theorem webhook_always_ok
    (mp : Provider) (db : DB) (now : Z) (rnd : string) (n : Notification) :
  response (webhook mp db now rnd n) = SendOK /\
  (calls (webhook mp db now rnd n) = [] \/
   exists dataId,
     notification_dataId n = Some dataId /\
     (calls (webhook mp db now rnd n) = [Fetch dataId] \/
      exists pre old,
        preapproval_fetch mp dataId = Returns pre /\ old <> pre_id pre /\
        calls (webhook mp db now rnd n) = [Fetch dataId; Update old "cancelled"])).
Proof.
  unfold webhook.
  destruct (notification_type n) as [ty|]; [|now split; [|left]].
  destruct (notification_dataId n) as [d|]; [|now split; [|left]].
  destruct (negb (truthy ty) || negb (truthy d)) eqn:Hg; [now split; [|left]|].
  destruct (includes "preapproval" ty); [|now split; [|left]].
  unfold getPreapprovalById.
  destruct (negb (truthy d)); [now split; [|left]|].
  destruct (preapproval_fetch mp d) as [pre|st] eqn:Hf.
  2:{ split; [reflexivity|]. right. exists d. split; [reflexivity|]. now left. }
  destruct (webhook_license db pre) as [lic|].
  2:{ split; [reflexivity|]. right. exists d. split; [reflexivity|]. now left. }
  unfold webhook_apply.
  destruct (authorized_or_active (pre_status pre)).
  - split; [reflexivity|]. right. exists d. split; [reflexivity|]. simpl calls.
    destruct (cancel_superseded_calls mp lic pre) as [->|(old & _ & Hne & ->)].
    + now left.
    + right. exists pre, old. repeat split; assumption.
  - destruct (String.eqb (pre_status pre) "paused");
      [split; [reflexivity|]; right; exists d; split; [reflexivity|]; now left|].
    destruct (String.eqb (pre_status pre) "cancelled");
      split; try reflexivity; right; exists d; split; try reflexivity; now left.
Qed.

(** A notification without a type or an id, or of a type that does not
    mention preapprovals, is dropped without a call to the provider; one
    whose preapproval the provider cannot return is dropped after that
    call.  Nothing is written in either case. *)
Theorem webhook_ignores
    (mp : Provider) (db : DB) (now : Z) (rnd : string) (n : Notification) :
  (truthy_opt (notification_type n) = false \/
   truthy_opt (notification_dataId n) = false \/
   (exists ty, notification_type n = Some ty /\ includes "preapproval" ty = false) ->
   webhook mp db now rnd n = reply SendOK db []) /\
  (forall ty d st,
     notification_type n = Some ty -> truthy ty = true ->
     includes "preapproval" ty = true ->
     notification_dataId n = Some d -> truthy d = true ->
     preapproval_fetch mp d = Throws st ->
     webhook mp db now rnd n = reply SendOK db [Fetch d]).
Proof.
  split.
  - unfold webhook. intros [Ht|[Hd|(ty & Hty & Hinc)]].
    + destruct (notification_type n) as [ty|]; [|reflexivity].
      destruct (notification_dataId n) as [d|]; [|reflexivity].
      simpl in Ht. now rewrite Ht.
    + destruct (notification_type n) as [ty|]; [|reflexivity].
      destruct (notification_dataId n) as [d|]; [|reflexivity].
      simpl in Hd. rewrite Hd. now rewrite orb_true_r.
    + rewrite Hty. destruct (notification_dataId n) as [d|]; [|reflexivity].
      rewrite Hinc. now destruct (negb (truthy ty) || negb (truthy d)).
  - intros ty d st Hty Ht Hinc Hd Hdt Hf. unfold webhook, getPreapprovalById.
    rewrite Hty, Hd, Ht, Hdt, Hinc, Hf. reflexivity.
Qed.

(** A "paused" or "cancelled" event stores that status on the license it
    is about and changes nothing else of it; an event of any other status
    that is not "authorized" or "active" changes nothing.  The provider is
    only read. *)
Theorem webhook_status_events
    (mp : Provider) (db : DB) (now : Z) (rnd : string) (n : Notification)
    (dataId : string) (pre : Preapproval) (lic : License)
    (Hev : delivers mp n dataId pre)
    (Hlic : webhook_license db pre = Some lic) :
  (pre_status pre = "paused" ->
   webhook mp db now rnd n =
     reply SendOK (save (set_status lic paused) db) [Fetch dataId]) /\
  (pre_status pre = "cancelled" ->
   webhook mp db now rnd n =
     reply SendOK (save (set_status lic cancelled) db) [Fetch dataId]) /\
  (authorized_or_active (pre_status pre) = false ->
   pre_status pre <> "paused" -> pre_status pre <> "cancelled" ->
   webhook mp db now rnd n = reply SendOK db [Fetch dataId]).
Proof.
  rewrite (webhook_unfold mp db now rnd n dataId pre Hev), Hlic.
  unfold webhook_apply. split; [|split].
  - intros ->. reflexivity.
  - intros ->. reflexivity.
  - intros -> Hp Hc. apply String.eqb_neq in Hp, Hc. rewrite Hp, Hc. reflexivity.
Qed.

Lemma webhook_license_after_save (db : DB) (pre : Preapproval)
    (lic lic' : License) :
  webhook_license db pre = Some lic ->
  id lic' = id lic -> userId lic' = userId lic ->
  mpPreapprovalId lic' = Some (pre_id pre) ->
  webhook_license (save lic' db) pre = Some lic'.
Proof.
  intros Hw Hid Hu Hp. unfold webhook_license in *.
  assert (Hin : In lic (licenses db)) by now apply (webhook_license_In db pre).
  assert (Hsub : by_mpPreapprovalId (pre_id pre) lic' = true).
  { unfold by_mpPreapprovalId. rewrite Hp. apply String.eqb_refl. }
  destruct (truthy_userId (reference_userId pre)).
  - unfold License_findOne_userId in *.
    destruct (reference_userId pre) as [[|u|]|].
    + now apply (findOne_save_hit _ db lic).
    + destruct (License_findOne (by_userId u) db) as [l|] eqn:E.
      * injection Hw as ->.
        rewrite (findOne_save_hit _ db lic lic' E Hid); [reflexivity|].
        apply findOne_In in E. unfold by_userId in *. now rewrite Hu.
      * rewrite (findOne_save_miss _ db lic lic' E Hin).
        -- now apply (findOne_save_hit _ db lic).
        -- unfold by_userId. now rewrite Hu.
    + now apply (findOne_save_hit _ db lic).
    + now apply (findOne_save_hit _ db lic).
  - now apply (findOne_save_hit _ db lic).
Qed.

(** Delivering an "authorized" or "active" event again, after it has been
    applied: the license is found again, no cancellation is asked for, and
    nothing changes but [expiresAt], which moves to one month after the
    new delivery. *)
Theorem webhook_redelivery
    (mp mp' : Provider) (db : DB) (now now' : Z) (rnd rnd' : string)
    (n : Notification) (dataId : string) (pre : Preapproval) (lic : License)
    (Hev : delivers mp n dataId pre)
    (Hev' : delivers mp' n dataId pre)
    (Hlic : webhook_license db pre = Some lic)
    (Hst : authorized_or_active (pre_status pre) = true) :
  let lic1 := rebind_and_activate lic pre now rnd in
  let db1 := db_after (webhook mp db now rnd n) in
  db1 = save lic1 db /\
  webhook mp' db1 now' rnd' n =
    reply SendOK (save (set_expiresAt lic1 (setMonth_next now')) db1)
      [Fetch dataId].
Proof.
  cbv zeta.
  destruct (rebind_and_activate_spec lic pre now rnd)
    as (Hid & Hs & Hp & Ht & _ & _ & _ & _ & _ & Hu).
  assert (E1 : db_after (webhook mp db now rnd n)
               = save (rebind_and_activate lic pre now rnd) db).
  { rewrite (webhook_unfold mp db now rnd n dataId pre Hev), Hlic.
    unfold webhook_apply. rewrite Hst. reflexivity. }
  split; [exact E1|]. rewrite E1.
  rewrite (webhook_unfold mp' _ now' rnd' n dataId pre Hev').
  rewrite (webhook_license_after_save db pre lic _ Hlic Hid Hu Hp).
  unfold webhook_apply. rewrite Hst. cbn [fst snd].
  assert (Hc : cancel_superseded mp' (rebind_and_activate lic pre now rnd) pre = []).
  { unfold cancel_superseded. rewrite Hp, String.eqb_refl.
    now rewrite andb_false_r. }
  rewrite Hc. f_equal. f_equal.
  set (l1 := rebind_and_activate lic pre now rnd) in *.
  unfold rebind_and_activate at 1. cbn zeta.
  cbn [token set_expiresAt set_status set_mpPreapprovalId].
  rewrite Ht. simpl negb. cbv iota.
  destruct l1; simpl in *. subst. reflexivity.
Qed.


(** [/return] writes only for a preapproval that is "authorized" or
    "active" and carries a reference: without an id in the query the
    provider is not even called; when the provider fails, when the status
    is another one or when there is no reference, nothing is written. *)
Theorem return_ignores
    (mp : Provider) (db : DB) (now : Z) (rnd : string)
    (q1 q2 q3 : option string) :
  (truthy_opt (or_else (or_else q1 q2) q3) = false ->
   return_ mp db now rnd q1 q2 q3 = reply (RedirectTo missing_preapproval) db []) /\
  (forall i, or_else (or_else q1 q2) q3 = Some i -> truthy i = true ->
     (forall st, preapproval_fetch mp i = Throws st ->
        return_ mp db now rnd q1 q2 q3 =
          reply (RedirectTo return_error) db [Fetch i]) /\
     (forall pre, preapproval_fetch mp i = Returns pre ->
        authorized_or_active (pre_status pre) = false \/
        truthy_opt (external_reference pre) = false ->
        db_after (return_ mp db now rnd q1 q2 q3) = db /\
        calls (return_ mp db now rnd q1 q2 q3) = [Fetch i] /\
        exists s, response (return_ mp db now rnd q1 q2 q3) =
                    RedirectTo (return_status (pre_id pre) s))).
Proof.
  split.
  - unfold return_. destruct (or_else (or_else q1 q2) q3) as [i|]; [|reflexivity].
    simpl. intros ->. reflexivity.
  - intros i Hq Hi. split.
    + intros st Hf. unfold return_, getPreapprovalById.
      rewrite Hq, Hi, Hf. reflexivity.
    + intros pre Hf Hno. unfold return_, getPreapprovalById.
      rewrite Hq, Hi, Hf. simpl negb. cbv iota. cbn zeta.
      replace (authorized_or_active (pre_status pre) &&
               truthy_userId (reference_userId pre)) with false.
      * repeat split. eexists. reflexivity.
      * symmetry. destruct Hno as [->|Hr]; [reflexivity|].
        unfold reference_userId.
        destruct (external_reference pre) as [r|]; simpl in Hr;
          [rewrite Hr|]; simpl; apply andb_false_r.
Qed.

End MoreEvents.

(** ** Subscriptions *)
Section Subscriptions.
Context `{Runtime} `{Jsonwebtoken}.
Variable env : Env.

Lemma createSubscriptionDirect_returns
    (mp : Provider) (u : Z) (p : Plan) (e : string) (b : option string) (a : Z)
    (ip i : string) (tr : list Call) :
  createSubscriptionDirect mp u p e b a = (Returns (ip, i), tr) ->
  truthy ip = true /\ truthy i = true /\ tr = [Create u p e] /\
  preapproval_create mp u p e = Returns (Some i, Some ip).
Proof.
  unfold createSubscriptionDirect.
  destruct (u =? 0); [discriminate|].
  destruct (negb (truthy e)); [discriminate|].
  destruct (a <=? 0); [discriminate|].
  destruct b as [b|]; [|discriminate].
  destruct (preapproval_create mp u p e) as [[[i0|] [ip0|]]|st]; try discriminate.
  destruct (truthy i0) eqn:Ei; simpl; [|discriminate].
  destruct (truthy ip0) eqn:Eip; simpl; [|discriminate].
  intros [= <- <- <-]. repeat split; assumption.
Qed.

(** [createSubscriptionDirect] does not reach the provider for an account
    key 0, an empty payer email, an amount that is not positive or a back
    URL that is not https; and what it returns is a non-empty checkout URL
    and a non-empty preapproval id, after exactly one creation. *)
Theorem createSubscriptionDirect_checks
    (mp : Provider) (u : Z) (p : Plan) (e : string) (b : option string) (a : Z) :
  (u = 0 \/ truthy e = false \/ a <= 0 \/ b = None ->
   exists st, createSubscriptionDirect mp u p e b a = (Throws st, [])) /\
  (forall ip i tr,
     createSubscriptionDirect mp u p e b a = (Returns (ip, i), tr) ->
     truthy ip = true /\ truthy i = true /\ tr = [Create u p e] /\
     preapproval_create mp u p e = Returns (Some i, Some ip)).
Proof.
  unfold createSubscriptionDirect. split.
  - intros Hbad.
    destruct (u =? 0) eqn:Eu; [now exists 500|].
    destruct (truthy e) eqn:Ee; simpl; [|now exists 500].
    destruct (a <=? 0) eqn:Ea; [now exists 500|].
    destruct b as [b|]; [|now exists 400].
    apply Z.eqb_neq in Eu. apply Z.leb_gt in Ea.
    destruct Hbad as [?|[?|[?|?]]]; try discriminate; lia.
  - intros ip i tr. apply createSubscriptionDirect_returns.
Qed.

(** A license whose status has been set to something else than [active]
    is refused by [/validate] under its token, with the new status as the
    reason. *)
Lemma validate_after_deactivation
    (db : DB) (now : Z) (tk d : string) (lic lic' : License) :
  truthy tk = true -> truthy d = true ->
  License_findOne (by_token tk) db = Some lic ->
  id lic' = id lic -> token lic' = token lic -> status lic' <> active ->
  public_license_validate env (save lic' db) now (Some tk) (Some d) =
    reply (Json 403 (Error (not_active_message (status lic')))) (save lic' db) [].
Proof.
  intros Htk Hd Hlic Hid Htok Hs.
  assert (Hf : License_findOne (by_token tk) (save lic' db) = Some lic').
  { apply (findOne_save_hit _ db lic); [assumption..|].
    apply findOne_In in Hlic. unfold by_token in *. rewrite Htok. tauto. }
  apply Status_eqb_neq in Hs.
  unfold public_license_validate. rewrite Htk, Hd, Hf. simpl negb. cbv iota.
  rewrite Hs. reflexivity.
Qed.

(** Subscribing when the account has a license: the license takes the
    plan asked for, the new preapproval and a pending expiry of one day,
    and becomes [inactive]; its token and devices stay.  From then on the
    token is refused by [/validate] as "no activa (inactive)", also when the
    license was active and paid for. *)
Theorem subscribe_deactivates_license
    (mp : Provider) (db : DB) (now user : Z) (s : string) (mpEmail : option string)
    (p : Plan) (u : User) (ip pid : string) (tr : list Call) (lic : License)
    (Hp : plan_of_string s = Some p)
    (Hu : User_findByPk db user = Some u)
    (Hc : createSubscriptionDirect mp (user_id u) p (payer mpEmail u)
            (mpBackUrl env) (price env p) = (Returns (ip, pid), tr))
    (Hlic : License_findOne (by_userId (user_id u)) db = Some lic) :
  let lic' :=
    {| id := id lic; userId := userId lic; token := token lic; plan := p;
       status := inactive; expiresAt := setDate_next now;
       devices := devices lic; mpPreapprovalId := Some pid;
       features := features lic |} in
  subscribe env mp db now user (Some s) mpEmail =
    reply (Json 200 (InitPoint ip None)) (save lic' db) tr /\
  (forall now' tk d, truthy tk = true -> truthy d = true ->
     License_findOne (by_token tk) db = Some lic ->
     public_license_validate env (save lic' db) now' (Some tk) (Some d) =
       reply (Json 403 (Error "Licencia no activa (inactive)")) (save lic' db) []).
Proof.
  cbv zeta. split.
  - unfold subscribe. rewrite Hp, Hu. cbn zeta. rewrite Hc, Hlic. reflexivity.
  - intros now' tk d Htk Hd Hf.
    now apply (validate_after_deactivation db now' tk d lic).
Qed.

(** Subscribing when the account has no license creates one: inactive,
    without token and without devices, on the plan asked for, bound to the
    new preapproval, pending for one day.  The other rows stay. *)
Theorem subscribe_creates_pending_license
    (mp : Provider) (db : DB) (now user : Z) (s : string) (mpEmail : option string)
    (p : Plan) (u : User) (ip pid : string) (tr : list Call)
    (Hp : plan_of_string s = Some p)
    (Hu : User_findByPk db user = Some u)
    (Hc : createSubscriptionDirect mp (user_id u) p (payer mpEmail u)
            (mpBackUrl env) (price env p) = (Returns (ip, pid), tr))
    (Hnone : License_findOne (by_userId (user_id u)) db = None) :
  let new :=
    {| id := next_id (licenses db); userId := user; token := None; plan := p;
       status := inactive; expiresAt := setDate_next now;
       devices := Some []; mpPreapprovalId := Some pid;
       features := {| whatsapp_bot := false; ai_cameras := false |} |} in
  subscribe env mp db now user (Some s) mpEmail =
    reply (Json 200 (InitPoint ip None))
      (with_licenses db (licenses db ++ [new])) tr.
Proof.
  cbv zeta. unfold subscribe. rewrite Hp, Hu. cbn zeta. rewrite Hc, Hnone.
  unfold User_findByPk in Hu. apply find_some in Hu. destruct Hu as [_ Hu].
  apply Z.eqb_eq in Hu. rewrite Hu. reflexivity.
Qed.

(** A subscription that cannot be made writes nothing: a plan that is
    neither "single" nor "multi" is a 400 and an unknown account a 404,
    both without a call to the provider; when the creation fails the reply
    has an error status between 400 and 599. *)
Theorem subscribe_failures
    (mp : Provider) (db : DB) (now user : Z) (plan_ mpEmail : option string) :
  ((plan_ = None \/ exists s, plan_ = Some s /\ s <> "single" /\ s <> "multi") ->
   subscribe env mp db now user plan_ mpEmail =
     reply (Json 400 (Error "Plan inválido")) db []) /\
  (forall s p, plan_ = Some s -> plan_of_string s = Some p ->
     User_findByPk db user = None ->
     subscribe env mp db now user plan_ mpEmail =
       reply (Json 404 (Error "Usuario no encontrado")) db []) /\
  (forall s p u st tr, plan_ = Some s -> plan_of_string s = Some p ->
     User_findByPk db user = Some u ->
     createSubscriptionDirect mp (user_id u) p (payer mpEmail u)
       (mpBackUrl env) (price env p) = (Throws st, tr) ->
     exists code,
       subscribe env mp db now user plan_ mpEmail =
         reply (Json code (ErrorDetails "No se pudo crear la suscripción")) db tr /\
       400 <= code < 600).
Proof.
  split; [|split].
  - intros [->|(s & -> & H1 & H2)]; [reflexivity|].
    unfold subscribe, plan_of_string.
    apply String.eqb_neq in H1, H2. rewrite H1, H2. reflexivity.
  - intros s p -> Hp Hu. unfold subscribe. rewrite Hp, Hu. reflexivity.
  - intros s p u st tr -> Hp Hu Hc. exists (subscribe_error_status st). split.
    + unfold subscribe. rewrite Hp, Hu. cbn zeta. rewrite Hc. reflexivity.
    + unfold subscribe_error_status.
      destruct (st >=? 400) eqn:E1; destruct (st <? 600) eqn:E2; simpl; lia.
Qed.

(** Changing the payment method never writes: the license keeps its
    preapproval, and the only call to the provider is the creation of the
    new one, whose id is handed to the client. *)
Theorem change_method_never_writes
    (mp : Provider) (db : DB) (user : Z) (mpEmail plan_ : option string) :
  db_after (subscription_change_method env mp db user mpEmail plan_) = db /\
  (forall c, In c (calls (subscription_change_method env mp db user mpEmail plan_)) ->
     exists u p e, c = Create u p e) /\
  (forall ip pid,
     response (subscription_change_method env mp db user mpEmail plan_) =
       Json 200 (InitPoint ip pid) ->
     exists i, pid = Some i /\ truthy i = true).
Proof.
  unfold subscription_change_method.
  destruct (User_findByPk db user) as [u|];
    [|repeat split; [intros c []|discriminate]].
  cbn zeta.
  destruct (match plan_ with
            | Some s => if truthy s then plan_of_string s else _
            | None => _
            end) as [p|];
    [|repeat split; [intros c []|discriminate]].
  destruct (createSubscriptionDirect mp (user_id u) p (payer mpEmail u)
              (mpBackUrl env) (price env p)) as [[[ip i]|st] tr] eqn:Hc.
  - apply createSubscriptionDirect_returns in Hc.
    destruct Hc as (_ & Hi & -> & _).
    split; [reflexivity|]. split.
    + intros c [<-|[]]. now eexists _, _, _.
    + intros ip' pid [= <- <-]. now exists i.
  - split; [reflexivity|]. split; [|discriminate].
    unfold createSubscriptionDirect in Hc.
    destruct (user_id u =? 0); [injection Hc as _ <-; intros c []|].
    destruct (negb (truthy (payer mpEmail u))); [injection Hc as _ <-; intros c []|].
    destruct (price env p <=? 0); [injection Hc as _ <-; intros c []|].
    destruct (mpBackUrl env); [|injection Hc as _ <-; intros c []].
    assert (tr = [Create (user_id u) p (payer mpEmail u)]) as ->.
    { destruct (preapproval_create mp _ _ _) as [[[i0|] [ip0|]]|s0];
        try (injection Hc as _ <-; reflexivity).
      destruct (truthy i0 && truthy ip0); injection Hc as _ <-; reflexivity. }
    intros c [<-|[]]. now eexists _, _, _.
Qed.

End Subscriptions.

(** ** Cancelling and pausing *)
Section Management.
Context `{Jsonwebtoken}.
Variable env : Env.

(** Without a license, or with a license that has no preapproval bound,
    cancel, pause and resume answer 404 and neither call the provider nor
    write. *)
Theorem management_needs_preapproval
    (mp : Provider) (db : DB) (user : Z)
    (Hno : License_findOne (by_userId user) db = None \/
           exists lic, License_findOne (by_userId user) db = Some lic /\
                       truthy_opt (mpPreapprovalId lic) = false) :
  subscription_cancel mp db user =
    reply (Json 404 (Error "No hay suscripción para cancelar")) db [] /\
  subscription_pause mp db user =
    reply (Json 404 (Error "No hay suscripción para pausar")) db [] /\
  subscription_resume mp db user =
    reply (Json 404 (Error "No hay suscripción para reanudar")) db [].
Proof.
  unfold subscription_cancel, subscription_pause, subscription_resume.
  destruct Hno as [->|(lic & -> & Hp)]; [repeat split|].
  rewrite Hp. repeat split.
Qed.

(** Cancelling and pausing act on the license of the account whatever its
    status: the provider is asked first; if it accepts, the status is
    stored and the token is refused by [/validate] from then on; if it
    refuses, nothing is written. *)
Theorem cancel_and_pause
    (mp : Provider) (db : DB) (user : Z) (lic : License) (p : string)
    (Hlic : License_findOne (by_userId user) db = Some lic)
    (Hpre : mpPreapprovalId lic = Some p)
    (Hp : truthy p = true) :
  (preapproval_update mp p "cancelled" = Returns tt ->
   subscription_cancel mp db user =
     reply (Json 200 OkMp) (save (set_status lic cancelled) db)
       [Update p "cancelled"]) /\
  (forall s, preapproval_update mp p "cancelled" = Throws s ->
   subscription_cancel mp db user =
     reply (Json s (Error "No se pudo cancelar la suscripción")) db
       [Update p "cancelled"]) /\
  (preapproval_update mp p "paused" = Returns tt ->
   subscription_pause mp db user =
     reply (Json 200 OkMp) (save (set_status lic paused) db)
       [Update p "paused"]) /\
  (forall s, preapproval_update mp p "paused" = Throws s ->
   subscription_pause mp db user =
     reply (Json s (Error "No se pudo pausar la suscripción")) db
       [Update p "paused"]) /\
  (forall now tk d st, truthy tk = true -> truthy d = true ->
     License_findOne (by_token tk) db = Some lic ->
     st = cancelled \/ st = paused ->
     public_license_validate env (save (set_status lic st) db) now (Some tk) (Some d) =
       reply (Json 403 (Error (not_active_message st)))
         (save (set_status lic st) db) []).
Proof.
  unfold subscription_cancel, subscription_pause, cancelPreapproval, pausePreapproval.
  rewrite Hlic, Hpre. simpl truthy_opt. rewrite Hp. simpl negb. cbv iota.
  repeat split.
  - intros ->. reflexivity.
  - intros s ->. reflexivity.
  - intros ->. reflexivity.
  - intros s ->. reflexivity.
  - intros now tk d st Htk Hd Hf Hst.
    apply (validate_after_deactivation env db now tk d lic (set_status lic st));
      try assumption; try reflexivity.
    destruct Hst as [-> | ->]; discriminate.
Qed.

End Management.

(** ** What requests leave alone *)


Lemma writes_evolves (R : License -> License -> Prop) (db db' : DB) :
  (forall l l', R l l' -> truthy_opt (token l) = true -> token l' = token l) ->
  writes R db db' -> evolves db db'.
Proof.
  intros HR Hw. destruct Hw as [|lic lic' Hin Hid Hr|uid p s e pre tok Hn].
  - apply evolves_same.
  - apply evolves_save with lic; auto.
  - apply evolves_create.
Qed.

(** The rows after a write, when keys are unique: every row is there under
    its key, as it was or as [R] allows. *)
Lemma writes_rows (R : License -> License -> Prop) (db db' : DB) :
  unique_ids db -> writes R db db' ->
  users db' = users db /\
  forall l, In l (licenses db) ->
    exists l', In l' (licenses db') /\ id l' = id l /\ (l' = l \/ R l l').
Proof.
  intros Hnd Hw. destruct Hw as [|lic lic' Hin Hid Hr|uid p s e pre tok Hn].
  - split; [reflexivity|]. intros l Hl. exists l. auto.
  - split; [reflexivity|]. intros l Hl. unfold save, with_licenses. simpl.
    exists (if id l =? id lic' then lic' else l). split.
    + apply (in_map (fun l0 => if id l0 =? id lic' then lic' else l0)), Hl.
    + destruct (id l =? id lic') eqn:E; [|auto].
      apply Z.eqb_eq in E. split; [now symmetry|]. right.
      assert (l = lic)
        by (apply (same_key_same_row (licenses db)); [exact Hnd | | | congruence];
            assumption).
      now subst l.
  - split; [reflexivity|]. intros l Hl. exists l.
    unfold License_create, with_licenses. simpl. rewrite in_app_iff. auto.
Qed.




Section Writing.
Context `{Runtime} `{Jsonwebtoken}.
Variable env : Env.


Ltac was_found :=
  match goal with
  | E : License_findOne _ _ = Some _ |- _ =>
      exact (proj1 (findOne_In _ _ _ E))
  end.

Ltac written R :=
  cbn [db_after reply];
  first
    [ apply writes_nothing
    | eapply writes_row; [was_found | reflexivity | unfold R; eauto] ].

Ltac cases :=
  cbv zeta;
  match goal with
  | |- context [match ?x with _ => _ end] => destruct x eqn:?
  end.

Lemma attach_writes (db : DB) (u : Z) (d : option string) :
  writes devices_changed db (db_after (license_devices_attach db u d)).
Proof. unfold license_devices_attach. repeat cases; written devices_changed. Qed.

Lemma detach_writes (db : DB) (u : Z) (d : option string) :
  writes devices_changed db (db_after (license_devices_detach db u d)).
Proof. unfold license_devices_detach. repeat cases; written devices_changed. Qed.

Lemma validate_writes (db : DB) (now : Z) (t d : option string) :
  writes devices_changed db (db_after (public_license_validate env db now t d)).
Proof.
  unfold public_license_validate.
  destruct t as [t|]; [|written devices_changed].
  destruct d as [d|]; [|written devices_changed].
  destruct (negb (truthy t) || negb (truthy d)); [written devices_changed|].
  destruct (License_findOne (by_token t) db) as [lic|] eqn:E; [|written devices_changed].
  destruct (negb (Status_eqb (status lic) active)); [written devices_changed|].
  destruct (expiresAt lic <? now); [written devices_changed|]. cbn zeta.
  destruct (negb (Set_has (Set_of (devices_or_empty lic)) d)).
  - destruct (Set_size _ >=? _); [written devices_changed|].
    destruct (signLicenseJWS_default _ _ _); written devices_changed.
  - destruct (signLicenseJWS_default _ _ _); written devices_changed.
Qed.

Lemma refresh_writes (R : License -> License -> Prop)
    (db : DB) (now : Z) (t d : option string) :
  writes R db (db_after (public_license_refresh env db now t d)).
Proof. unfold public_license_refresh. repeat cases; apply writes_nothing. Qed.

Lemma change_method_writes (R : License -> License -> Prop)
    (mp : Provider) (db : DB) (u : Z) (e p : option string) :
  writes R db (db_after (subscription_change_method env mp db u e p)).
Proof. unfold subscription_change_method. repeat cases; apply writes_nothing. Qed.

Lemma subscribe_writes (mp : Provider) (db : DB) (now u : Z)
    (p e : option string) :
  writes subscription_changed db (db_after (subscribe env mp db now u p e)).
Proof.
  unfold subscribe.
  destruct (match p with Some s => plan_of_string s | None => None end);
    [|apply writes_nothing].
  destruct (User_findByPk db u); [|apply writes_nothing].
  destruct (createSubscriptionDirect _ _ _ _ _ _) as [[[ip pid]|s] tr];
    [|apply writes_nothing].
  cbn zeta. cbn [db_after reply].
  destruct (License_findOne _ db) eqn:E.
  - eapply writes_row; [was_found | reflexivity |].
    unfold subscription_changed. eauto.
  - now apply writes_new.
Qed.

Lemma cancel_writes (mp : Provider) (db : DB) (u : Z) :
  writes status_changed db (db_after (subscription_cancel mp db u)).
Proof. unfold subscription_cancel. repeat cases; written status_changed. Qed.

Lemma pause_writes (mp : Provider) (db : DB) (u : Z) :
  writes status_changed db (db_after (subscription_pause mp db u)).
Proof. unfold subscription_pause. repeat cases; written status_changed. Qed.

Lemma resume_writes (mp : Provider) (db : DB) (u : Z) :
  writes status_changed db (db_after (subscription_resume mp db u)).
Proof. unfold subscription_resume. repeat cases; written status_changed. Qed.

Lemma return_writes (mp : Provider) (db : DB) (now : Z) (rnd : string)
    (a b c : option string) :
  writes event_applied db (db_after (return_ mp db now rnd a b c)).
Proof.
  unfold return_.
  destruct (or_else (or_else a b) c) as [i|]; [|apply writes_nothing].
  destruct (negb (truthy i)); [apply writes_nothing|].
  destruct (getPreapprovalById mp i) as [[pre|s] tr]; [|apply writes_nothing].
  cbn zeta.
  destruct (authorized_or_active (pre_status pre) && truthy_userId (reference_userId pre));
    [|apply writes_nothing].
  destruct (License_findOne_userId _ db) as [lic|] eqn:E.
  - cbn [db_after reply].
    apply writes_row with lic.
    + now apply findOne_userId_In in E.
    + now destruct (rebind_and_activate_spec lic pre now rnd).
    + left. eauto.
  - destruct (reference_userId pre) as [[|z|]|]; try apply writes_nothing.
    cbn [db_after reply]. apply writes_new. exact E.
Qed.

Lemma webhook_writes (mp : Provider) (db : DB) (now : Z) (rnd : string)
    (n : Notification) :
  writes event_applied db (db_after (webhook mp db now rnd n)).
Proof.
  unfold webhook.
  destruct (notification_type n) as [ty|]; [|apply writes_nothing].
  destruct (notification_dataId n) as [d|]; [|apply writes_nothing].
  destruct (negb (truthy ty) || negb (truthy d)); [apply writes_nothing|].
  destruct (includes "preapproval" ty); [|apply writes_nothing].
  destruct (getPreapprovalById mp d) as [[pre|s] tr]; [|apply writes_nothing].
  destruct (webhook_license db pre) as [lic|] eqn:E; [|apply writes_nothing].
  apply webhook_license_In in E.
  unfold webhook_apply.
  destruct (authorized_or_active (pre_status pre)); cbn [db_after reply].
  - apply writes_row with lic; [assumption | |left; eauto].
    now destruct (rebind_and_activate_spec lic pre now rnd).
  - destruct (String.eqb (pre_status pre) "paused"); cbn [db_after reply].
    + apply writes_row with lic; [assumption | reflexivity |].
      right. unfold status_changed. eauto.
    + destruct (String.eqb (pre_status pre) "cancelled"); cbn [db_after reply].
      * apply writes_row with lic; [assumption | reflexivity |].
        right. unfold status_changed. eauto.
      * apply writes_nothing.
Qed.





(** What each kind of request leaves alone, on every license (keys being
    unique): the devices change only through attach, detach and validate;
    the plan changes only through [/subscribe]; the status is not changed
    by requests of devices, refreshes and changes of payment method. *)
Theorem requests_leave_alone
    (db : DB) (r : Request) (l : License)
    (Hkeys : unique_ids db)
    (Hl : In l (licenses db)) :
  exists l',
    License_findByPk (id l) (db_after (handle env db r)) = Some l' /\
    userId l' = userId l /\
    (device_request r = false -> devices l' = devices l) /\
    (subscribe_request r = false -> plan l' = plan l) /\
    (status_neutral_request r = true -> status l' = status l).
Proof.
  assert (Hk' : unique_ids (db_after (handle env db r))).
  { apply (evolves_keeps_tokens db); [assumption | apply handle_evolves]. }
  assert (Hfind : forall R,
    writes R db (db_after (handle env db r)) ->
    exists l', License_findByPk (id l) (db_after (handle env db r)) = Some l' /\
               (l' = l \/ R l l')).
  { intros R Hw. destruct (writes_rows R _ _ Hkeys Hw) as [_ Hr].
    destruct (Hr l Hl) as (l' & Hl' & Hid & HR). exists l'. split; [|assumption].
    rewrite <- Hid. now apply findByPk_unique. }
  destruct r as [u d|u d|mp now u p e|mp now rnd a b c|mp now rnd n
                |mp u|mp u|mp u|mp u e p|now t d|now t d];
    simpl handle in *; cbn [device_request subscribe_request status_neutral_request].
  - destruct (Hfind _ (attach_writes db u d)) as (l' & E & [->|(ds & ->)]);
      eexists; (split; [exact E|]); repeat split; congruence.
  - destruct (Hfind _ (detach_writes db u d)) as (l' & E & [->|(ds & ->)]);
      eexists; (split; [exact E|]); repeat split; congruence.
  - destruct (Hfind _ (subscribe_writes mp db now u p e))
      as (l' & E & [->|(p' & s & pid & e' & ->)]);
      eexists; (split; [exact E|]); repeat split; congruence.
  - destruct (Hfind _ (return_writes mp db now rnd a b c))
      as (l' & E & [->|[(pre & now' & rnd' & ->)|(s & ->)]]);
      eexists; (split; [exact E|]); repeat split; try congruence;
      destruct (rebind_and_activate_spec l pre now' rnd')
        as (_&_&_&_&_&_&_&Hd&Hp&Hu); intros; assumption.
  - destruct (Hfind _ (webhook_writes mp db now rnd n))
      as (l' & E & [->|[(pre & now' & rnd' & ->)|(s & ->)]]);
      eexists; (split; [exact E|]); repeat split; try congruence;
      destruct (rebind_and_activate_spec l pre now' rnd')
        as (_&_&_&_&_&_&_&Hd&Hp&Hu); intros; assumption.
  - destruct (Hfind _ (cancel_writes mp db u)) as (l' & E & [->|(s & ->)]);
      eexists; (split; [exact E|]); repeat split; congruence.
  - destruct (Hfind _ (pause_writes mp db u)) as (l' & E & [->|(s & ->)]);
      eexists; (split; [exact E|]); repeat split; congruence.
  - destruct (Hfind _ (resume_writes mp db u)) as (l' & E & [->|(s & ->)]);
      eexists; (split; [exact E|]); repeat split; congruence.
  - destruct (Hfind (fun _ _ => False)
                (change_method_writes _ mp db u e p))
      as (l' & E & [->|[]]).
    eexists; (split; [exact E|]); repeat split; congruence.
  - destruct (Hfind _ (validate_writes db now t d))
      as (l' & E & [->|(ds & ->)]);
      eexists; (split; [exact E|]); repeat split; congruence.
  - destruct (Hfind (fun _ _ => False) (refresh_writes _ db now t d))
      as (l' & E & [->|[]]).
    eexists; (split; [exact E|]); repeat split; congruence.
Qed.

End Writing.

(** ** Missing keys *)
Section Keys.
Context `{Jsonwebtoken}.
Variable env : Env.

(** Without a private key nothing is signed: [signLicenseJWS] throws, and
    neither [/validate] nor [/refresh] ever grants a license, whatever the
    request and the database.  Without a public key [verifyLicenseJWS]
    fails before it looks at the assertion. *)
Theorem missing_keys
    (db : DB) (now : Z) (tk d : option string) :
  (PRIVATE_PEM (license_sign env) = "" ->
   (forall p ttl t, signLicenseJWS (license_sign env) p ttl t = None) /\
   ~ granted (response (public_license_validate env db now tk d)) /\
   ~ granted (response (public_license_refresh env db now tk d))) /\
  (PUBLIC_PEM (license_sign env) = "" ->
   forall jws t, verifyLicenseJWS (license_sign env) jws t = inr NoPublicPem).
Proof.
  split.
  - intros Hp.
    assert (Hs : forall p ttl t, signLicenseJWS (license_sign env) p ttl t = None).
    { intros p ttl t. unfold signLicenseJWS. now rewrite Hp. }
    split; [exact Hs|]. split.
    + unfold public_license_validate, signLicenseJWS_default.
      repeat match goal with
             | |- context [signLicenseJWS ?c ?a ?l ?t] => rewrite (Hs a l t)
             | |- context [match ?x with _ => _ end] => destruct x
             end;
        intros [? [? [? E]]]; discriminate E.
    + unfold public_license_refresh, signLicenseJWS_default.
      repeat match goal with
             | |- context [signLicenseJWS ?c ?a ?l ?t] => rewrite (Hs a l t)
             | |- context [match ?x with _ => _ end] => destruct x
             end;
        intros [? [? [? E]]]; discriminate E.
  - intros Hp jws t. unfold verifyLicenseJWS. now rewrite Hp.
Qed.

End Keys.

(** ** Sessions *)
Section Sessions.
Context `{SessionTokens}.

(** The middleware lets a request through only when its authorization
    header is "Bearer " followed by a token that is not empty once trimmed,
    that token verifies, and, if a role is required, the role of the token
    is that role; the user it passes on is the one of the token.  Without
    such a header the reply is 401; the only other reply is the 403 of a
    verified token with another role. *)
Theorem authMiddleware_gate
    (requiredRole authorization : option string) :
  (forall user, authMiddleware requiredRole authorization = Next user ->
     exists a,
       authorization = Some a /\ String.prefix "Bearer " a = true /\
       truthy (trim (String.substring 7 (String.length a - 7) a)) = true /\
       verify (trim (String.substring 7 (String.length a - 7) a)) = Some user /\
       (forall r, requiredRole = Some r -> truthy r = true -> c_role user = r)) /\
  ((authorization = None \/
    exists a, authorization = Some a /\ String.prefix "Bearer " a = false) ->
   authMiddleware requiredRole authorization =
     Refused 401 "No autorizado: token faltante") /\
  (forall st e, authMiddleware requiredRole authorization = Refused st e ->
     st = 401 \/
     (st = 403 /\
      exists t u r, verify t = Some u /\ requiredRole = Some r /\ c_role u <> r)).
Proof.
  unfold authMiddleware, getTokenFromHeader, or_else.
  destruct authorization as [a|]; simpl truthy_opt.
  2:{ simpl. repeat split; try discriminate.
      intros st e [= <- _]. now left. }
  destruct (truthy a) eqn:Ha.
  2:{ unfold truthy in Ha. apply negb_false_iff, String.eqb_eq in Ha. subst a.
      simpl. repeat split; try discriminate.
      intros st e [= <- _]. now left. }
  destruct (String.prefix "Bearer " a) eqn:Hpre.
  2:{ repeat split; try discriminate. intros st e [= <- _]. now left. }
  set (tk := trim (String.substring 7 (String.length a - 7) a)).
  destruct (truthy tk) eqn:Ht; simpl negb; cbv iota.
  2:{ split; [discriminate|]. split.
      - intros [E|(a' & [= <-] & E)]; [discriminate | congruence].
      - intros st e [= <- _]. now left. }
  destruct (verify tk) as [u|] eqn:Hv.
  2:{ split; [discriminate|]. split.
      - intros [E|(a' & [= <-] & E)]; [discriminate | congruence].
      - intros st e [= <- _]. now left. }
  destruct requiredRole as [r|].
  - destruct (truthy r) eqn:Hr; simpl andb.
    + destruct (String.eqb (c_role u) r) eqn:Er; simpl negb; cbv iota.
      * split; [|split].
        -- intros user [= <-]. exists a. repeat split; try assumption.
           ++ destruct u; exact Hv.
           ++ intros r' [= <-] _. simpl. now apply String.eqb_eq.
        -- intros [E|(a' & [= <-] & E)]; [discriminate | congruence].
        -- discriminate.
      * split; [discriminate|]. split.
        -- intros [E|(a' & [= <-] & E)]; [discriminate | congruence].
        -- intros st e [= <- _]. right. split; [reflexivity|].
           exists tk, u, r. apply String.eqb_neq in Er. now repeat split.
    + split; [|split].
      * intros user [= <-]. exists a. repeat split; try assumption.
        -- destruct u; exact Hv.
        -- intros r' [= <-] Hr'. congruence.
      * intros [E|(a' & [= <-] & E)]; [discriminate | congruence].
      * discriminate.
  - split; [|split].
    + intros user [= <-]. exists a. repeat split; try assumption.
      * destruct u; exact Hv.
      * discriminate.
    + intros [E|(a' & [= <-] & E)]; [discriminate | congruence].
    + discriminate.
Qed.

End Sessions.

(** ** Tokens *)

Lemma digit36_value_digit36 (d : Z) :
  0 <= d < 36 -> digit36_value (digit36 d) = d.
Proof.
  intros Hd.
  assert (exists n, (n < 36)%nat /\ d = Z.of_nat n) as (n & Hn & ->)
    by (exists (Z.to_nat d); lia).
  clear Hd. do 36 (destruct n as [|n]; [reflexivity|]). lia.
Qed.

Lemma value36_from_app (a b : string) (v : Z) :
  value36_from v (a ++ b)%string = value36_from (value36_from v a) b.
Proof. revert v. induction a as [|c a IH]; intros v; simpl; [reflexivity | apply IH]. Qed.

Lemma append_assoc (a b c : string) :
  ((a ++ b) ++ c)%string = (a ++ (b ++ c))%string.
Proof. induction a as [|x a IH]; simpl; [reflexivity | now rewrite IH]. Qed.

Lemma toString36_aux_digits (fuel : nat) (z : Z) (acc : string) :
  0 <= z < 36 ^ Z.of_nat fuel ->
  exists ds, toString36_aux fuel z acc = (ds ++ acc)%string /\
             value36_from 0 ds = z.
Proof.
  revert z acc. induction fuel as [|fuel IH]; intros z acc Hz.
  - exists ""%string. simpl in *. split; [reflexivity | lia].
  - cbn [toString36_aux]. cbv zeta.
    assert (Hm : 0 <= z mod 36 < 36) by (apply Z.mod_pos_bound; lia).
    destruct (z / 36 =? 0) eqn:E.
    + exists (String (digit36 (z mod 36)) ""). split; [reflexivity|].
      cbn [value36_from]. rewrite digit36_value_digit36 by assumption.
      apply Z.eqb_eq in E. pose proof (Z.div_mod z 36). lia.
    + assert (Hq : 0 <= z / 36 < 36 ^ Z.of_nat fuel).
      { split; [apply Z.div_pos; lia|].
        apply Z.div_lt_upper_bound; [lia|].
        rewrite Nat2Z.inj_succ, Z.pow_succ_r in Hz by lia. lia. }
      destruct (IH (z / 36) (String (digit36 (z mod 36)) acc) Hq) as (ds & Hds & Hv).
      exists (ds ++ String (digit36 (z mod 36)) "")%string. split.
      * rewrite Hds, append_assoc. reflexivity.
      * rewrite value36_from_app, Hv. cbn [value36_from].
        rewrite digit36_value_digit36 by assumption.
        pose proof (Z.div_mod z 36). lia.
Qed.

Lemma parseInt36_toString36 (z : Z) :
  0 <= z -> parseInt36 (toString36 z) = z.
Proof.
  intros Hz. unfold toString36, parseInt36.
  assert (Hb : 0 <= z < 36 ^ Z.of_nat (S (Z.to_nat (Z.log2 z)))).
  { split; [assumption|].
    rewrite Nat2Z.inj_succ, Z2Nat.id by apply Z.log2_nonneg.
    destruct (Z.eq_dec z 0) as [->|Hnz]; [reflexivity|].
    assert (Hl : z < 2 ^ Z.succ (Z.log2 z)) by (apply Z.log2_spec; lia).
    assert (2 ^ Z.succ (Z.log2 z) <= 36 ^ Z.succ (Z.log2 z)).
    { apply Z.pow_le_mono_l. lia. }
    lia. }
  destruct (toString36_aux_digits _ z "" Hb) as (ds & Hds & Hv).
  rewrite Hds. rewrite value36_from_app. simpl. exact Hv.
Qed.

Lemma dash_split (r1 r2 t1 t2 : string) :
  dash_free r1 = true -> dash_free r2 = true ->
  (r1 ++ "-" ++ t1)%string = (r2 ++ "-" ++ t2)%string ->
  r1 = r2 /\ t1 = t2.
Proof.
  revert r2. induction r1 as [|c r1 IH]; intros r2 H1 H2 E.
  - destruct r2 as [|c2 r2]; simpl in *.
    + injection E as E. now split.
    + injection E as Ec E. subst c2. simpl in H2. discriminate.
  - destruct r2 as [|c2 r2]; simpl in *.
    + injection E as Ec E. subst c. simpl in H1. discriminate.
    + injection E as Ec E. subst c2.
      apply andb_true_iff in H1, H2.
      destruct (IH r2 (proj2 H1) (proj2 H2) E) as [-> ->]. now split.
Qed.

(** A token tells its random part and the millisecond it was made: two
    tokens are equal only if both are.  In particular the tokens that
    [generateLicenseToken] makes at different clock values differ. *)
Theorem generateLicenseToken_injective
    (rnd1 rnd2 : string) (now1 now2 : Z)
    (H1 : dash_free rnd1 = true) (H2 : dash_free rnd2 = true)
    (Hn1 : 0 <= now1) (Hn2 : 0 <= now2)
    (E : generateLicenseToken rnd1 now1 = generateLicenseToken rnd2 now2) :
  rnd1 = rnd2 /\ now1 = now2.
Proof.
  unfold generateLicenseToken in E. simpl in E. injection E as E.
  destruct (dash_split rnd1 rnd2 _ _ H1 H2 E) as [Hr Ht]. split; [assumption|].
  rewrite <- (parseInt36_toString36 now1 Hn1), <- (parseInt36_toString36 now2 Hn2).
  now rewrite Ht.
Qed.

(** * The properties on concrete licenses *)
Import Examples.

(** C2, where the code departs from it.  Account 1 holds an active license
    bound to "pre_old" and subscribes again: [/subscribe] binds "pre_new" in
    place of "pre_old" and calls the provider only to create the new
    preapproval; when the provider then reports "pre_new" authorized, the
    stored id already equals the id of the event, so [/webhook] does not ask
    for a cancellation either.  Nothing ever asks to cancel "pre_old". *)
Theorem C2_subscribe_rebinds_without_cancelling :
  License_findByPk 1 (db1 (bound_license active 5000))
    = Some (bound_license active 5000) /\
  mpPreapprovalId (bound_license active 5000) = Some "pre_old" /\
  calls again_subscribe = [Create 1 single "ana@example.com"] /\
  option_map mpPreapprovalId (License_findByPk 1 (db_after again_subscribe))
    = Some (Some "pre_new") /\
  calls again_webhook = [Fetch "pre_new"] /\
  option_map status (License_findByPk 1 (db_after again_webhook)) = Some active /\
  ~ In (Update "pre_old" "cancelled") (calls again_subscribe ++ calls again_webhook).
Proof.
  repeat split; try reflexivity.
  change (calls again_subscribe ++ calls again_webhook)
    with [Create 1 single "ana@example.com"; Fetch "pre_new"].
  simpl. intros [E|[E|[]]]; discriminate E.
Qed.

(** The same event on a license that [/subscribe] has not rebound: the
    cancellation of "pre_old" is asked for, and the license is rebound
    even though the provider refuses it. *)
Example webhook_cancels_old_and_rebinds :
  let mp := refusing_updates (preapproval "pre_new" "authorized" (Some "1")) in
  let out := webhook mp (db1 (bound_license active 5000)) 2000 "r4nd0m"
               (notification "pre_new") in
  calls out = [Fetch "pre_new"; Update "pre_old" "cancelled"] /\
  option_map mpPreapprovalId (License_findByPk 1 (db_after out))
    = Some (Some "pre_new").
Proof. split; reflexivity. Qed.

(** C1, counterexample to the bound [expiresAt <= now]: an active license
    that expires exactly now is granted, by [/validate] and by [/refresh]. *)
Lemma C1_expiring_now_is_granted :
  status (bound_license active 1000) = active /\
  expiresAt (bound_license active 1000) <= 1000 /\
  granted (response (public_license_validate env (db1 (bound_license active 1000))
                       1000 (Some "VS-abc-1") (Some "A"))) /\
  granted (response (public_license_refresh env (db1 (bound_license active 1000))
                       1000 (Some "VS-abc-1") (Some "A"))).
Proof.
  split; [reflexivity|]. split; [simpl; lia|].
  split; do 3 eexists; reflexivity.
Qed.

(** C1 on a paused license and on a license that expired a millisecond
    ago. *)
Lemma C1_validation_gate_witness :
  public_license_validate env (db1 (bound_license paused 5000)) 1000
      (Some "VS-abc-1") (Some "A")
    = reply (Json 403 (Error "Licencia no activa (paused)"))
        (db1 (bound_license paused 5000)) [] /\
  public_license_validate env (db1 (bound_license active 999)) 1000
      (Some "VS-abc-1") (Some "A")
    = reply (Json 403 (Error "Licencia expirada"))
        (db1 (bound_license active 999)) [].
Proof.
  split.
  - apply (C1_validation_gate env (db1 (bound_license paused 5000)) 1000
             "VS-abc-1" "A" (bound_license paused 5000)
             eq_refl eq_refl eq_refl).
    discriminate.
  - apply (C1_validation_gate env (db1 (bound_license active 999)) 1000
             "VS-abc-1" "A" (bound_license active 999)
             eq_refl eq_refl eq_refl).
    + reflexivity.
    + simpl. lia.
Defined.

(** C3 on the scenario of the specification: an inactive single-device
    license without devices and without token receives "authorized". *)
Lemma C3_authorized_event_activates_witness :
  exists lic',
    License_findByPk 1
      (db_after (webhook (accepting (preapproval "pre_1" "authorized" (Some "1")))
                   (db1 (license1 inactive single [] None (Some "pre_1") 1000))
                   1700000000000 "k3x9qa" (notification "pre_1")))
      = Some lic' /\
    status lic' = active /\
    mpPreapprovalId lic' = Some "pre_1" /\
    truthy_opt (token lic') = true /\
    (truthy_opt None = false -> token lic' = Some "VS-k3x9qa-loyw3v28") /\
    (truthy_opt None = true -> token lic' = None) /\
    expiresAt lic' = 1700000000000 + 30 * 86400000 /\
    devices lic' = Some [].
Proof.
  assert (Hev : delivers (accepting (preapproval "pre_1" "authorized" (Some "1")))
                  (notification "pre_1") "pre_1"
                  (preapproval "pre_1" "authorized" (Some "1"))).
  { exists "subscription_preapproval". repeat split; reflexivity. }
  exact (C3_authorized_event_activates
           (accepting (preapproval "pre_1" "authorized" (Some "1")))
           (db1 (license1 inactive single [] None (Some "pre_1") 1000))
           1700000000000 "k3x9qa" (notification "pre_1") "pre_1"
           (preapproval "pre_1" "authorized" (Some "1"))
           (license1 inactive single [] None (Some "pre_1") 1000)
           Hev eq_refl (or_introl eq_refl)).
Defined.

(** C4 on the scenario of the specification: devices ["A"], plan single,
    attach "B". *)
Lemma C4_attach_beyond_quota_refused_witness :
  limitForPlan single = 1 /\ limitForPlan multi = 3 /\
  license_devices_attach (db1 (bound_license active 5000)) 1 (Some "B")
    = reply (Json 403 (Error "Límite de dispositivos alcanzado (1)"))
        (db1 (bound_license active 5000)) [] /\
  db_after (license_devices_attach (db1 (bound_license active 5000)) 1 (Some "B"))
    = db1 (bound_license active 5000).
Proof.
  apply (C4_attach_beyond_quota_refused (db1 (bound_license active 5000)) 1 "B"
           (bound_license active 5000) eq_refl eq_refl eq_refl).
  vm_compute. discriminate.
Defined.

(** C5 on a license that is subscribed again, activated by a notification
    that is delivered twice, paused, resumed and stripped of its device. *)
Lemma C5_token_immutable_witness :
  exists l',
    License_findByPk 1
      (serve env (db1 (bound_license active 5000))
         [ Subscribe again_provider 1000 1 (Some "multi") None;
           Webhook again_provider 2000 "r4nd0m" (notification "pre_new");
           Webhook again_provider 3000 "0th3r" (notification "pre_new");
           Pause again_provider 1;
           Resume again_provider 1;
           DetachDevice 1 (Some "A") ])
      = Some l' /\
    token l' = Some "VS-abc-1".
Proof.
  apply (C5_token_immutable env (db1 (bound_license active 5000)) _
           (bound_license active 5000) "VS-abc-1").
  - unfold unique_ids. simpl. repeat constructor. intros [].
  - simpl. left. reflexivity.
  - reflexivity.
  - reflexivity.
Defined.

(** C6, counterexample: a cancelled license becomes active through a direct
    resume request, when the provider accepts the call. *)
Lemma C6_resume_reactivates_cancelled :
  License_findByPk 1 (db1 (bound_license cancelled 5000))
    = Some (bound_license cancelled 5000) /\
  status (bound_license cancelled 5000) = cancelled /\
  subscription_resume again_provider (db1 (bound_license cancelled 5000)) 1
    = reply (Json 200 OkMp) (db1 (bound_license active 5000))
        [Update "pre_old" "authorized"] /\
  status (bound_license active 5000) = active.
Proof. repeat split; reflexivity. Qed.

(** C6 on a paused license. *)
Lemma C6_resume_sets_active_witness :
  subscription_resume again_provider (db1 (bound_license paused 5000)) 1
    = reply (Json 200 OkMp) (db1 (bound_license active 5000))
        [Update "pre_old" "authorized"].
Proof.
  apply (C6_resume_sets_active again_provider (db1 (bound_license paused 5000)) 1
           (bound_license paused 5000) "pre_old" eq_refl eq_refl eq_refl).
  reflexivity.
Defined.

(** C7 with two accounts: the event "pre_2" carries the reference of
    account 1 while "pre_2" is stored on the license of account 2; the
    event pauses the license of account 1 and leaves the other one alone. *)
Lemma C7_event_resolution_witness :
  webhook (accepting (preapproval "pre_2" "paused" (Some "1")))
    (db2 (bound_license active 5000) (license2 active (Some "pre_2")))
    2000 "r4nd0m" (notification "pre_2")
  = reply SendOK
      (db2 (bound_license paused 5000) (license2 active (Some "pre_2")))
      [Fetch "pre_2"].
Proof.
  assert (Hev : delivers (accepting (preapproval "pre_2" "paused" (Some "1")))
                  (notification "pre_2") "pre_2"
                  (preapproval "pre_2" "paused" (Some "1"))).
  { exists "subscription_preapproval". repeat split; reflexivity. }
  assert (Href : by_reference
                   (db2 (bound_license active 5000) (license2 active (Some "pre_2")))
                   (preapproval "pre_2" "paused" (Some "1"))
                   (bound_license active 5000)).
  { exists "1", 1. repeat split; try reflexivity. discriminate. }
  exact (proj1 (C7_event_resolution
                  (accepting (preapproval "pre_2" "paused" (Some "1")))
                  (db2 (bound_license active 5000) (license2 active (Some "pre_2")))
                  2000 "r4nd0m" (notification "pre_2") "pre_2"
                  (preapproval "pre_2" "paused" (Some "1")) Hev)
           (bound_license active 5000) Href).
Defined.

(** C8 with the keys of the examples: issued at second 1000, valid for 72
    hours. *)
Lemma C8_assertion_lifetime_witness :
  exists jws,
    signLicenseJWS keys args (72 * 3600) 1000000 = Some jws /\
    jws_payload jws = license_payload args (72 * 3600) 1000000 /\
    iat (jws_payload jws) = 1000000 / 1000 /\
    exp (jws_payload jws) = iat (jws_payload jws) + 72 * 3600 /\
    (forall t, t < 1000 * exp (jws_payload jws) ->
       verifyLicenseJWS keys jws t = inl (jws_payload jws)) /\
    (forall t, 1000 * exp (jws_payload jws) <= t ->
       verifyLicenseJWS keys jws t = inr TokenExpiredError) /\
    (LICENSE_OFFLINE_TTL_SEC keys = None ->
       signLicenseJWS_default keys args 1000000
         = signLicenseJWS keys args (72 * 3600) 1000000).
Proof.
  apply (C8_assertion_lifetime keys args (72 * 3600) 1000000 eq_refl eq_refl).
  intros m. exists "KEY". split; reflexivity.
Defined.

(** C9 with the quota reached: device "A" is the one device of a
    single-device license. *)
Lemma C9_attach_idempotent_witness :
  Set_size (Set_of ["A"]) >= limitForPlan single /\
  license_devices_attach (db1 (bound_license active 5000)) 1 (Some "A")
    = reply (Json 200 (TheLicense (bound_license active 5000)))
        (db1 (bound_license active 5000)) [].
Proof.
  split; [vm_compute; discriminate|].
  apply (C9_attach_idempotent env (db1 (bound_license active 5000)) 1 "A"
           (bound_license active 5000) eq_refl (or_introl eq_refl)).
  reflexivity.
Defined.

(** C10 on an account whose only license is paused, on the multi plan and
    without devices. *)
Lemma C10_attach_needs_active_license_witness :
  license_devices_attach
    (db1 (license1 paused multi [] (Some "VS-abc-1") (Some "pre_old") 5000))
    1 (Some "B")
  = reply (Json 404 (Error "No hay licencia activa"))
      (db1 (license1 paused multi [] (Some "VS-abc-1") (Some "pre_old") 5000)) [].
Proof.
  apply (C10_attach_needs_active_license
           (db1 (license1 paused multi [] (Some "VS-abc-1") (Some "pre_old") 5000))
           1 "B" eq_refl).
  intros l [<-|[]] _. discriminate.
Defined.

(** * Further properties on concrete licenses *)

(** A multi-device license with device "A" gets device "B". *)
Lemma attach_binds_new_device_witness :
  license_devices_attach
    (db1 (license1 active multi ["A"] (Some "VS-abc-1") (Some "pre_old") 5000))
    1 (Some "B")
  = reply
      (Json 200 (TheLicense
         (license1 active multi ["A"; "B"] (Some "VS-abc-1") (Some "pre_old") 5000)))
      (db1 (license1 active multi ["A"; "B"] (Some "VS-abc-1") (Some "pre_old") 5000))
      [].
Proof.
  assert (Hnew : ~ In "B" (devices_or_empty
            (license1 active multi ["A"] (Some "VS-abc-1") (Some "pre_old") 5000))).
  { intros [E|[]]. discriminate E. }
  pose proof (attach_binds_new_device
                (db1 (license1 active multi ["A"] (Some "VS-abc-1") (Some "pre_old") 5000))
                1 "B"
                (license1 active multi ["A"] (Some "VS-abc-1") (Some "pre_old") 5000)
                eq_refl eq_refl Hnew eq_refl) as W.
  exact (proj1 W).
Defined.

(** Device "A" is detached from a paused license. *)
Lemma detach_removes_device_witness :
  license_devices_detach (db1 (bound_license paused 5000)) 1 (Some "A")
  = reply
      (Json 200 (TheLicense
         (license1 paused single [] (Some "VS-abc-1") (Some "pre_old") 5000)))
      (db1 (license1 paused single [] (Some "VS-abc-1") (Some "pre_old") 5000)) [].
Proof.
  pose proof (detach_removes_device (db1 (bound_license paused 5000)) 1 "A"
                (bound_license paused 5000) eq_refl) as W.
  exact (proj1 W).
Defined.

(** A single-device license bound to "A": after "A" is detached, "B" can
    be attached. *)
Lemma detach_then_attach_witness :
  license_devices_attach
    (db_after (license_devices_detach (db1 (bound_license active 5000)) 1 (Some "A")))
    1 (Some "B")
  = reply
      (Json 200 (TheLicense
         (license1 active single ["B"] (Some "VS-abc-1") (Some "pre_old") 5000)))
      (db1 (license1 active single ["B"] (Some "VS-abc-1") (Some "pre_old") 5000)) [].
Proof.
  assert (Hnd : NoDup ["A"]) by (repeat constructor; intros []).
  assert (Hfull : Z.of_nat (List.length ["A"]) <= limitForPlan single)
    by (vm_compute; discriminate).
  assert (Hnew : ~ In "B" ["A"]) by (intros [E|[]]; discriminate E).
  exact (detach_then_attach (db1 (bound_license active 5000)) 1 "A" "B"
           (bound_license active 5000) ["A"] eq_refl eq_refl eq_refl Hnd Hfull
           (or_introl eq_refl) eq_refl Hnew).
Defined.

(** A single-device license bound to "A" is validated from device "B". *)
Lemma validate_beyond_quota_refused_witness :
  public_license_validate env (db1 (bound_license active 5000)) 1000
    (Some "VS-abc-1") (Some "B")
  = reply (Json 403 (Error "Límite de dispositivos alcanzado (1)"))
      (db1 (bound_license active 5000)) [].
Proof.
  assert (Hexp : 1000 <= expiresAt (bound_license active 5000))
    by (vm_compute; discriminate).
  assert (Hnew : ~ In "B" (devices_or_empty (bound_license active 5000)))
    by (intros [E|[]]; discriminate E).
  assert (Hfull : limitForPlan (plan (bound_license active 5000))
                  <= Set_size (Set_of (devices_or_empty (bound_license active 5000))))
    by (vm_compute; discriminate).
  exact (validate_beyond_quota_refused env (db1 (bound_license active 5000)) 1000
           "VS-abc-1" "B" (bound_license active 5000)
           eq_refl eq_refl eq_refl eq_refl Hexp Hnew Hfull).
Defined.

(** A license without devices is validated from device "A": the device is
    stored. *)
Lemma validate_binds_new_device_witness :
  db_after (public_license_validate env
              (db1 (license1 active single [] (Some "VS-abc-1") (Some "pre_old") 5000))
              1000 (Some "VS-abc-1") (Some "A"))
  = db1 (bound_license active 5000).
Proof.
  assert (Hexp : 1000 <= 5000) by (vm_compute; discriminate).
  assert (Hnew : ~ In "A" []) by (intros []).
  pose proof (validate_binds_new_device env
                (db1 (license1 active single [] (Some "VS-abc-1") (Some "pre_old") 5000))
                1000 "VS-abc-1" "A"
                (license1 active single [] (Some "VS-abc-1") (Some "pre_old") 5000)
                eq_refl eq_refl eq_refl eq_refl Hexp Hnew eq_refl) as W.
  exact (proj1 W).
Defined.

(** Device "A" of a bound license refreshes its assertion. *)
Lemma refresh_accepts_bound_device_witness :
  granted (response (public_license_refresh env (db1 (bound_license active 5000))
                       1000 (Some "VS-abc-1") (Some "A"))) /\
  db_after (public_license_refresh env (db1 (bound_license active 5000))
              1000 (Some "VS-abc-1") (Some "A"))
  = db1 (bound_license active 5000).
Proof.
  assert (Hexp : 1000 <= 5000) by (vm_compute; discriminate).
  rewrite (refresh_accepts_bound_device env (db1 (bound_license active 5000)) 1000
             "VS-abc-1" "A" (bound_license active 5000) ["A"]
             eq_refl eq_refl eq_refl eq_refl Hexp eq_refl (or_introl eq_refl)).
  split; [do 3 eexists|]; reflexivity.
Defined.

(** A license without devices is validated from "A" at 1000 and refreshed
    from "A" at 2000. *)
Lemma validate_then_refresh_witness :
  granted
    (response
       (public_license_refresh env
          (db_after (public_license_validate env
                       (db1 (license1 active single [] (Some "VS-abc-1")
                               (Some "pre_old") 5000))
                       1000 (Some "VS-abc-1") (Some "A")))
          2000 (Some "VS-abc-1") (Some "A"))).
Proof.
  assert (Hexp : 1000 <= 5000) by (vm_compute; discriminate).
  assert (Hexp' : 2000 <= 5000) by (vm_compute; discriminate).
  assert (Hnew : ~ In "A" []) by (intros []).
  pose proof (validate_then_refresh env
                (db1 (license1 active single [] (Some "VS-abc-1") (Some "pre_old") 5000))
                1000 2000 "VS-abc-1" "A"
                (license1 active single [] (Some "VS-abc-1") (Some "pre_old") 5000)
                eq_refl eq_refl eq_refl eq_refl Hexp Hexp' Hnew eq_refl) as W.
  cbv zeta in W. rewrite (proj1 W). do 3 eexists. reflexivity.
Defined.


(** The assertion granted to device "A" at second 1 verifies at second 2
    and names the device, the token and the license. *)
Lemma granted_assertion_verifies_witness :
  exists jws,
    response (public_license_validate env (db1 (bound_license active 5000)) 1000
                (Some "VS-abc-1") (Some "A"))
      = Json 200 (Validated jws (summary (bound_license active 5000)) 259200) /\
    verifyLicenseJWS keys jws 2000 = inl (jws_payload jws) /\
    dev (jws_payload jws) = "A" /\
    tok (jws_payload jws) = Some "VS-abc-1" /\
    lic (jws_payload jws) = 1 /\
    exp (jws_payload jws) = 1 + 259200.
Proof.
  eexists. split; [reflexivity|].
  assert (Hk : key_pair (PRIVATE_PEM (license_sign env)) (PUBLIC_PEM (license_sign env))).
  { intros m. exists "KEY". split; reflexivity. }
  pose proof (granted_assertion_verifies env (db1 (bound_license active 5000)) 1000
                "VS-abc-1" "A" _ _ _ eq_refl eq_refl eq_refl Hk eq_refl) as W.
  destruct W as (Hv & Hd & Ht & Hl & _ & _ & _ & _ & He & _).
  split; [apply Hv; vm_compute; reflexivity|].
  repeat split; assumption.
Defined.

(** A "cancelled" event for the preapproval of account 1. *)
Lemma webhook_status_events_witness :
  webhook (accepting (preapproval "pre_old" "cancelled" (Some "1")))
    (db1 (bound_license active 5000)) 2000 "r4nd0m" (notification "pre_old")
  = reply SendOK (db1 (bound_license cancelled 5000)) [Fetch "pre_old"].
Proof.
  assert (Hev : delivers (accepting (preapproval "pre_old" "cancelled" (Some "1")))
                  (notification "pre_old") "pre_old"
                  (preapproval "pre_old" "cancelled" (Some "1"))).
  { exists "subscription_preapproval". repeat split; reflexivity. }
  pose proof (webhook_status_events
                (accepting (preapproval "pre_old" "cancelled" (Some "1")))
                (db1 (bound_license active 5000)) 2000 "r4nd0m"
                (notification "pre_old") "pre_old"
                (preapproval "pre_old" "cancelled" (Some "1"))
                (bound_license active 5000) Hev eq_refl) as W.
  exact (proj1 (proj2 W) eq_refl).
Defined.

(** The event "pre_new" is delivered at 2000 and again at 3000 to a license
    bound to "pre_old": the second delivery only moves the expiry. *)
Lemma webhook_redelivery_witness :
  webhook again_provider
    (db_after (webhook again_provider (db1 (bound_license active 5000)) 2000
                 "r4nd0m" (notification "pre_new")))
    3000 "0th3r" (notification "pre_new")
  = reply SendOK
      (db1 (license1 active single ["A"] (Some "VS-abc-1") (Some "pre_new")
              (3000 + 30 * 86400000)))
      [Fetch "pre_new"].
Proof.
  assert (Hev : delivers again_provider (notification "pre_new") "pre_new"
                  (preapproval "pre_new" "authorized" (Some "1"))).
  { exists "subscription_preapproval". repeat split; reflexivity. }
  pose proof (webhook_redelivery again_provider again_provider
                (db1 (bound_license active 5000)) 2000 3000 "r4nd0m" "0th3r"
                (notification "pre_new") "pre_new"
                (preapproval "pre_new" "authorized" (Some "1"))
                (bound_license active 5000) Hev Hev eq_refl eq_refl) as W.
  exact (proj2 W).
Defined.


(** Account 1, with an active license, subscribes to the multi plan: its
    token is refused from then on. *)
Lemma subscribe_deactivates_license_witness :
  subscribe env again_provider (db1 (bound_license active 5000)) 1000 1
    (Some "multi") None
  = reply (Json 200 (InitPoint "https://mp.example/checkout" None))
      (db1 (license1 inactive multi ["A"] (Some "VS-abc-1") (Some "pre_new") 86401000))
      [Create 1 multi "ana@example.com"] /\
  public_license_validate env
    (db1 (license1 inactive multi ["A"] (Some "VS-abc-1") (Some "pre_new") 86401000))
    2000 (Some "VS-abc-1") (Some "A")
  = reply (Json 403 (Error "Licencia no activa (inactive)"))
      (db1 (license1 inactive multi ["A"] (Some "VS-abc-1") (Some "pre_new") 86401000))
      [].
Proof.
  pose proof (subscribe_deactivates_license env again_provider
                (db1 (bound_license active 5000)) 1000 1 "multi" None multi
                {| user_id := 1; email := "ana@example.com" |}
                "https://mp.example/checkout" "pre_new"
                [Create 1 multi "ana@example.com"]
                (bound_license active 5000) eq_refl eq_refl eq_refl eq_refl) as W.
  cbv zeta in W. split; [exact (proj1 W)|].
  exact (proj2 W 2000 "VS-abc-1" "A" eq_refl eq_refl eq_refl).
Defined.

(** Account 2 has no license and subscribes to the multi plan. *)
Lemma subscribe_creates_pending_license_witness :
  subscribe env again_provider
    {| users := users (db2 (bound_license active 5000) (license2 active None));
       licenses := [ bound_license active 5000 ] |} 1000 2 (Some "multi") None
  = reply (Json 200 (InitPoint "https://mp.example/checkout" None))
      {| users := users (db2 (bound_license active 5000) (license2 active None));
         licenses :=
           [ bound_license active 5000;
             {| id := 2; userId := 2; token := None; plan := multi;
                status := inactive; expiresAt := 86401000; devices := Some [];
                mpPreapprovalId := Some "pre_new"; features := no_features |} ] |}
      [Create 2 multi "luis@example.com"].
Proof.
  exact (subscribe_creates_pending_license env again_provider
           {| users := users (db2 (bound_license active 5000) (license2 active None));
              licenses := [ bound_license active 5000 ] |}
           1000 2 "multi" None multi
           {| user_id := 2; email := "luis@example.com" |}
           "https://mp.example/checkout" "pre_new"
           [Create 2 multi "luis@example.com"]
           eq_refl eq_refl eq_refl eq_refl).
Defined.

(** Account 2 has a license without preapproval. *)
Lemma management_needs_preapproval_witness :
  subscription_cancel again_provider
    (db2 (bound_license active 5000) (license2 active None)) 2
  = reply (Json 404 (Error "No hay suscripción para cancelar"))
      (db2 (bound_license active 5000) (license2 active None)) [].
Proof.
  assert (Hno : License_findOne (by_userId 2)
                  (db2 (bound_license active 5000) (license2 active None)) = None \/
                exists lic,
                  License_findOne (by_userId 2)
                    (db2 (bound_license active 5000) (license2 active None))
                    = Some lic /\
                  truthy_opt (mpPreapprovalId lic) = false).
  { right. exists (license2 active None). split; reflexivity. }
  exact (proj1 (management_needs_preapproval again_provider
                  (db2 (bound_license active 5000) (license2 active None)) 2 Hno)).
Defined.

(** Account 1 pauses; the provider refuses. *)
Lemma cancel_and_pause_witness :
  subscription_pause
    (refusing_updates (preapproval "pre_old" "authorized" (Some "1")))
    (db1 (bound_license active 5000)) 1
  = reply (Json 400 (Error "No se pudo pausar la suscripción"))
      (db1 (bound_license active 5000)) [Update "pre_old" "paused"] /\
  subscription_cancel again_provider (db1 (bound_license active 5000)) 1
  = reply (Json 200 OkMp) (db1 (bound_license cancelled 5000))
      [Update "pre_old" "cancelled"].
Proof.
  split.
  - pose proof (cancel_and_pause env
                  (refusing_updates (preapproval "pre_old" "authorized" (Some "1")))
                  (db1 (bound_license active 5000)) 1 (bound_license active 5000)
                  "pre_old" eq_refl eq_refl eq_refl) as W.
    destruct W as (_ & _ & _ & Hp & _). exact (Hp 400 eq_refl).
  - pose proof (cancel_and_pause env again_provider
                  (db1 (bound_license active 5000)) 1 (bound_license active 5000)
                  "pre_old" eq_refl eq_refl eq_refl) as W.
    destruct W as (Hc & _). exact (Hc eq_refl).
Defined.


(** A notification that activates the license of account 1 leaves its
    devices and its plan as they are. *)
Lemma requests_leave_alone_witness :
  exists l',
    License_findByPk 1
      (db_after (handle env (db1 (bound_license inactive 5000))
                   (Webhook again_provider 3000 "r4nd0m" (notification "pre_new"))))
      = Some l' /\
    userId l' = 1 /\
    devices l' = Some ["A"] /\ plan l' = single.
Proof.
  assert (Hk : unique_ids (db1 (bound_license inactive 5000))).
  { unfold unique_ids. simpl. repeat constructor. intros []. }
  destruct (requests_leave_alone env (db1 (bound_license inactive 5000))
              (Webhook again_provider 3000 "r4nd0m" (notification "pre_new"))
              (bound_license inactive 5000) Hk (or_introl eq_refl))
    as (l' & E & Hu & Hd & Hp & _).
  exists l'. split; [exact E|]. split; [exact Hu|].
  split; [exact (Hd eq_refl) | exact (Hp eq_refl)].
Defined.

(** Two tokens with the same random part, made one millisecond apart. *)
Lemma generateLicenseToken_injective_witness :
  dash_free "k3x9qa" = true /\
  generateLicenseToken "k3x9qa" 1700000000000
    <> generateLicenseToken "k3x9qa" 1700000000001.
Proof.
  split; [reflexivity|]. intros E.
  assert (H1 : 0 <= 1700000000000) by (vm_compute; discriminate).
  assert (H2 : 0 <= 1700000000001) by (vm_compute; discriminate).
  pose proof (generateLicenseToken_injective "k3x9qa" "k3x9qa"
                1700000000000 1700000000001 eq_refl eq_refl H1 H2 E) as W.
  destruct W as [_ W]. discriminate W.
Defined.

(** The session of "t-ana" passes a middleware that requires a client and
    is refused by one that requires an admin. *)
Example authMiddleware_on_a_client :
  @authMiddleware example_tokens (Some "client") (Some "Bearer t-ana")
    = Next {| c_id := 1; c_email := "ana@example.com"; c_role := "client" |} /\
  @authMiddleware example_tokens (Some "admin") (Some "Bearer t-ana")
    = Refused 403 "Prohibido: rol insuficiente" /\
  @authMiddleware example_tokens None (Some "Bearer ")
    = Refused 401 "No autorizado: token faltante".
Proof. repeat split. Qed.
